(** * GNEX GYM: the billing ledger of the check-in records, the member and
    walk-in session ledgers and the date utilities, embedded from the
    TypeScript sources and checked against the specification.

    Conventions of the embedding.

    - A JavaScript [number] holding money is a [Z] counting centavos; a
      session or item count is a [Z].  On such values the source's [+], [-],
      [*] and comparisons are exact, which is the arithmetic modelled here.
    - An optional property ([x?: T]) is an [option]; [undefined] is [None].
    - A React state cell is passed explicitly: an operation takes the previous
      collection and returns the next one, together with whatever the source
      returns or signals ([alert], a result object, a message).
    - The clock ([new Date()], [Date.now()]), [Math.random()] and the host's
      [new Date(string)] parser are inputs of the operations that read them.
    - A [Date] is kept in local wall-clock time as a day number and the
      milliseconds within that day; daylight-saving jumps are not modelled. *)

From Stdlib Require Import ZArith Ascii String.
From stdpp Require Import base decidable option list gmap strings pretty.

Local Open Scope Z_scope.

(* ====================================================================== *)
(** * JavaScript primitives used by the sources *)
(* ====================================================================== *)

Module JS.

(** [x ?? d] *)
Definition nullish {A} (x : option A) (d : A) : A :=
  match x with Some v => v | None => d end.

(** Truthiness of an optional string: [undefined] and [''] are falsy. *)
Definition truthyStr (s : option string) : bool :=
  match s with
  | Some s => negb (String.eqb s "")
  | None => false
  end.

(** Truthiness of an optional number: [undefined] and [0] are falsy. *)
Definition truthyNum (n : option Z) : bool :=
  match n with
  | Some n => negb (n =? 0)
  | None => false
  end.

(** [n || 0] on an optional number. *)
Definition orZero (n : option Z) : Z := nullish n 0.

(** [a === b] on optional strings. *)
Definition strictEqStr (a b : option string) : bool :=
  match a, b with
  | Some x, Some y => String.eqb x y
  | None, None => true
  | _, _ => false
  end.

Definition isDigit (c : ascii) : bool :=
  let n := nat_of_ascii c in (48 <=? n)%nat && (n <=? 57)%nat.

Definition isSpace (c : ascii) : bool :=
  let n := nat_of_ascii c in
  (n =? 32)%nat || ((9 <=? n)%nat && (n <=? 13)%nat).

Definition lowerChar (c : ascii) : ascii :=
  let n := nat_of_ascii c in
  if (65 <=? n)%nat && (n <=? 90)%nat then ascii_of_nat (n + 32) else c.

(** [s.toLowerCase()] (ASCII letters). *)
Fixpoint toLowerCase (s : string) : string :=
  match s with
  | EmptyString => EmptyString
  | String c r => String (lowerChar c) (toLowerCase r)
  end.

(** [s.includes(sub)] *)
Fixpoint includes (s sub : string) : bool :=
  String.prefix sub s
  || match s with
     | EmptyString => false
     | String _ r => includes r sub
     end.

Fixpoint trimStart (s : string) : string :=
  match s with
  | String c r => if isSpace c then trimStart r else s
  | EmptyString => EmptyString
  end.

Definition revString (s : string) : string :=
  string_of_list_ascii (rev (list_ascii_of_string s)).

(** [s.trim()] *)
Definition trim (s : string) : string :=
  revString (trimStart (revString (trimStart s))).

(** The longest prefix of digits, and what follows it. *)
Fixpoint spanDigits (s : string) : string * string :=
  match s with
  | String c r =>
      if isDigit c
      then let '(ds, rest) := spanDigits r in (String c ds, rest)
      else (EmptyString, s)
  | EmptyString => (EmptyString, EmptyString)
  end.

Fixpoint digitsValue (acc : Z) (s : string) : Z :=
  match s with
  | String c r => digitsValue (10 * acc + (Z.of_nat (nat_of_ascii c) - 48)) r
  | EmptyString => acc
  end.

(** [parseInt(s, 10)]: leading white space, an optional sign, then the
    longest run of digits; [None] is [NaN]. *)
Definition parseInt (s : string) : option Z :=
  let s1 := trimStart s in
  let '(neg, s2) :=
    match s1 with
    | String "-" r => (true, r)
    | String "+" r => (false, r)
    | _ => (false, s1)
    end in
  let '(ds, _) := spanDigits s2 in
  match ds with
  | EmptyString => None
  | _ => Some (if neg : bool then - digitsValue 0 ds else digitsValue 0 ds)
  end.

(** [s.split(/[-/]/)] *)
Fixpoint splitDashSlash (cur : string) (s : string) : list string :=
  match s with
  | EmptyString => [revString cur]
  | String c r =>
      if (Ascii.eqb c "-" || Ascii.eqb c "/")%bool
      then revString cur :: splitDashSlash EmptyString r
      else splitDashSlash (String c cur) r
  end.

Definition split (s : string) : list string := splitDashSlash EmptyString s.

(** [String(n)] and [`${n}`] for an integer. *)
Definition numToString (n : Z) : string := pretty n.

(** [s.padStart(2, '0')] *)
Definition padStart2 (s : string) : string :=
  match s with
  | EmptyString => "00"
  | String c EmptyString => String "0" (String c EmptyString)
  | _ => s
  end.

(** [amount.toFixed(2)] of an amount counted in centavos. *)
Definition toFixed2 (c : Z) : string :=
  let a := Z.abs c in
  (if c <? 0 then "-" else "")
    +:+ numToString (a / 100) +:+ "." +:+ padStart2 (numToString (a mod 100)).

(** [name.match(/(\d+)\s*SESSION/i)]: the digits captured by the leftmost
    match.  A match starts at a digit, takes the whole run of digits, skips
    white space and must then read "session" in any letter case. *)
Fixpoint matchSessionCount (s : string) : option string :=
  match s with
  | EmptyString => None
  | String c r =>
      if isDigit c then
        let '(ds, rest) := spanDigits s in
        if String.prefix "session" (toLowerCase (trimStart rest))
        then Some ds
        else matchSessionCount r
      else matchSessionCount r
  end.

(** The double-quote character as a string. *)
Definition quote : string := String (ascii_of_nat 34) EmptyString.

(** [[a, b].filter(Boolean).join(' + ')] for an optional [a] and a string [b]. *)
Definition joinPlus (a : option string) (b : string) : string :=
  match truthyStr a, a, String.eqb b "" with
  | true, Some x, false => x +:+ " + " +:+ b
  | true, Some x, true => x
  | _, _, _ => b
  end.

(** [names.join(' + ')] *)
Fixpoint joinWithPlus (l : list string) : string :=
  match l with
  | [] => ""
  | [x] => x
  | x :: r => x +:+ " + " +:+ joinWithPlus r
  end.

(** An optional string that is there and not empty. *)
Definition present (s : option string) : Prop :=
  match s with
  | Some v => v <> EmptyString
  | None => False
  end.

#[global] Instance present_dec (s : option string) : Decision (present s).
Proof. destruct s; simpl; apply _. Defined.

End JS.

(* ====================================================================== *)
(** * utils/dateUtils.ts *)
(* ====================================================================== *)

Module DateUtils.

(** A valid time value, in local wall-clock time. *)
Record Instant := mkInstant {
  dayNumber : Z;   (* days since 1970-01-01 *)
  timeInDay : Z    (* milliseconds since local midnight *)
}.

(** A JavaScript [Date]: [None] is the "Invalid Date". *)
Definition Date := option Instant.

Definition msPerDay : Z := 86400000.

Definition timeValue (t : Instant) : Z := dayNumber t * msPerDay + timeInDay t.

(** [a <= b], [a < b] on dates compare time values. *)
Definition leDate (a b : Instant) : bool := timeValue a <=? timeValue b.
Definition ltDate (a b : Instant) : bool := timeValue a <? timeValue b.

(** Days since the epoch of the civil date [y]-[m]-[d], [m] in 1..12. *)
Definition daysFromCivil (y m d : Z) : Z :=
  let y' := if m <=? 2 then y - 1 else y in
  let era := y' / 400 in
  let yoe := y' - era * 400 in
  let mp := if m >? 2 then m - 3 else m + 9 in
  let doy := (153 * mp + 2) / 5 + d - 1 in
  let doe := yoe * 365 + yoe / 4 - yoe / 100 + doy in
  era * 146097 + doe - 719468.

(** The civil date (year, month 1..12, day) of a day number. *)
Definition civilFromDays (z : Z) : Z * Z * Z :=
  let z' := z + 719468 in
  let era := z' / 146097 in
  let doe := z' - era * 146097 in
  let yoe := (doe - doe / 1460 + doe / 36524 - doe / 146096) / 365 in
  let doy := doe - (365 * yoe + yoe / 4 - yoe / 100) in
  let mp := (5 * doy + 2) / 153 in
  let d := doy - (153 * mp + 2) / 5 + 1 in
  let m := if mp <? 10 then mp + 3 else mp - 9 in
  (if m <=? 2 then yoe + era * 400 + 1 else yoe + era * 400, m, d).

(** ECMAScript [MakeDay(year, month, date)], [month] counted from 0 and
    allowed to leave 0..11, [date] allowed to leave the month. *)
Definition MakeDay (year month date : Z) : Z :=
  daysFromCivil (year + month / 12) (month mod 12 + 1) 1 + date - 1.

(** ECMAScript [TimeClip]. *)
Definition timeClip (t : Instant) : Date :=
  if Z.abs (timeValue t) <=? 8640000000000000 then Some t else None.

Definition getFullYear (t : Instant) : Z := (civilFromDays (dayNumber t)).1.1.
Definition getMonth (t : Instant) : Z := (civilFromDays (dayNumber t)).1.2 - 1.
Definition getDate (t : Instant) : Z := (civilFromDays (dayNumber t)).2.

(** [new Date(year, monthIndex, day)] *)
Definition newDateYMD (year monthIndex day : Z) : Date :=
  let yr := if (0 <=? year) && (year <=? 99) then 1900 + year else year in
  timeClip (mkInstant (MakeDay yr monthIndex day) 0).

(** [d.setHours(0, 0, 0, 0)] *)
Definition startOfDay (t : Instant) : Instant := mkInstant (dayNumber t) 0.

Definition setMonth (t : Instant) (m : Z) : Date :=
  timeClip (mkInstant (MakeDay (getFullYear t) m (getDate t)) (timeInDay t)).

Definition setDate (t : Instant) (d : Z) : Date :=
  timeClip (mkInstant (MakeDay (getFullYear t) (getMonth t) d) (timeInDay t)).

Definition setFullYear (t : Instant) (y : Z) : Date :=
  timeClip (mkInstant (MakeDay y (getMonth t) (getDate t)) (timeInDay t)).

Definition addMonths (date : Instant) (months : Z) : Date :=
  setMonth date (getMonth date + months).

Definition addDays (date : Instant) (days : Z) : Date :=
  setDate date (getDate date + days).

Definition addYear (date : Instant) : Date :=
  setFullYear date (getFullYear date + 1).

Definition formatToYMD (date : Date) : string :=
  match date with
  | None => "NaN-NaN-NaN"
  | Some t =>
      JS.numToString (getFullYear t) +:+ "-"
        +:+ JS.padStart2 (JS.numToString (getMonth t + 1)) +:+ "-"
        +:+ JS.padStart2 (JS.numToString (getDate t))
  end.

Definition getTodayYMD (now : Instant) : string := formatToYMD (Some now).

Definition getLocalISOString (now : Instant) : string :=
  let t := timeInDay now in
  formatToYMD (Some now) +:+ "T"
    +:+ JS.padStart2 (JS.numToString (t / 3600000)) +:+ ":"
    +:+ JS.padStart2 (JS.numToString (t / 60000 mod 60)) +:+ ":"
    +:+ JS.padStart2 (JS.numToString (t / 1000 mod 60)).

Definition monthShort (m : Z) : string :=
  nth (Z.to_nat m)
    ["Jan"; "Feb"; "Mar"; "Apr"; "May"; "Jun";
     "Jul"; "Aug"; "Sep"; "Oct"; "Nov"; "Dec"] "".

(** [d.toLocaleDateString('en-US', {month:'short', day:'numeric', year:'numeric'})] *)
Definition toLocaleDateShort (t : Instant) : string :=
  monthShort (getMonth t) +:+ " " +:+ JS.numToString (getDate t)
    +:+ ", " +:+ JS.numToString (getFullYear t).

Section Host.

(** The host's [new Date(string)]; [None] is the "Invalid Date".  Which
    strings it accepts beyond the ISO format is left to the engine. *)
Variable hostDate : string -> Date.

(** The manual branch of [parseDate], on the trimmed string: [Some] is the
    [return manualDate], [None] falls through to the fallback. *)
Definition parseManual (trimmedDate : string) : option Instant :=
  match map JS.parseInt (JS.split trimmedDate) with
  | [Some p1; Some p2; Some p3] =>
      let ymd :=
        if p1 >? 1000 then Some (p1, p2, p3)
        else if p3 >? 1000 then Some (p3, p2, p1)
        else None in
      match ymd with
      | Some (year, month, day) =>
          if negb (year =? 0) && negb (month =? 0) && negb (day =? 0) then
            match newDateYMD year (month - 1) day with
            | Some manualDate =>
                if (getFullYear manualDate =? year)
                   && (getMonth manualDate =? month - 1)
                   && (getDate manualDate =? day)
                then Some manualDate
                else None
            | None => None
            end
          else None
      | None => None
      end
  | _ => None
  end.

Definition parseFallback (trimmedDate : string) : option Instant :=
  match hostDate trimmedDate with
  | Some fallbackDate =>
      let year := getFullYear fallbackDate in
      if (year >? 1900) && (year <? 2100) then Some fallbackDate else None
  | None => None
  end.

Definition parseDate (dateString : option string) : option Instant :=
  match dateString with
  | None => None
  | Some s =>
      if String.eqb s "" || String.eqb (JS.trim s) "" then None
      else
        let trimmedDate := JS.trim s in
        match parseManual trimmedDate with
        | Some d => Some d
        | None => parseFallback trimmedDate
        end
  end.

(** [formatDate] on a string argument. *)
Definition formatDateStr (date : option string) : string :=
  if negb (JS.truthyStr date) then "N/A"
  else match parseDate date with
       | Some t => toLocaleDateShort t
       | None => "N/A"
       end.

(** [formatDate] on a [Date] argument. *)
Definition formatDate (date : Date) : string :=
  match date with
  | Some t => toLocaleDateShort t
  | None => "N/A"
  end.

(** [isPastOrToday] on a string argument, with the clock reading [now]. *)
Definition isPastOrToday (now : Instant) (date : option string) : bool :=
  if negb (JS.truthyStr date) then false
  else match parseDate date with
       | Some dateObj => leDate dateObj (startOfDay now)
       | None => false
       end.

Definition normalizeDateStringToYMD (dateString : option string) : string :=
  match parseDate dateString with
  | Some d => formatToYMD (Some d)
  | None => ""
  end.

End Host.

End DateUtils.

(* ====================================================================== *)
(** * types.ts *)
(* ====================================================================== *)

Module Types.

Inductive HistoryEntryType := status_change | payment | session_update | note.

Record MemberHistoryEntry := mkHistoryEntry {
  h_timestamp : string;
  h_type : HistoryEntryType;
  h_title : string;
  h_details : option string;
  h_paymentAmount : option Z
}.

Inductive PlanType := plan_member | plan_walkin | plan_coach | plan_class.

Record PricePlan := mkPricePlan {
  p_id : string;
  p_name : string;
  p_amount : Z;
  p_type : PlanType
}.

Inductive ClientType := Member_t | Walkin_t.

Inductive Status := Pending | Confirmed | Cancelled.

Inductive PendingAction := act_payment | act_unfreeze | act_checkin | act_checkout.

#[global] Instance PlanType_eq_dec : EqDecision PlanType.
Proof. solve_decision. Defined.

#[global] Instance ClientType_eq_dec : EqDecision ClientType.
Proof. solve_decision. Defined.

#[global] Instance Status_eq_dec : EqDecision Status.
Proof. solve_decision. Defined.

#[global] Instance PendingAction_eq_dec : EqDecision PendingAction.
Proof. solve_decision. Defined.

Record PaymentDetails := mkPaymentDetails {
  pd_plan : string;
  pd_amount : Z
}.

Record PurchasedItem := mkPurchasedItem {
  it_itemId : string;
  it_productId : string;
  it_name : string;
  it_quantity : Z;
  it_price : Z
}.

(** An entry of the [products] argument of [addCheckoutRecord]. *)
Record ProductLine := mkProductLine {
  pl_productId : string;
  pl_name : string;
  pl_quantity : Z;
  pl_price : Z
}.

Record SessionPlanDetails := mkSessionPlanDetails {
  spd_name : string;
  spd_total : Z
}.

Record SessionPlan := mkSessionPlan {
  sp_name : string;
  sp_total : Z;
  sp_used : Z;
  sp_lastSessionUsedDate : option string
}.

Record CheckinRecord := mkCheckinRecord {
  r_id : string;
  r_timestamp : string;
  r_type : ClientType;
  r_name : string;
  r_gymNumber : option string;
  r_photoUrl : option string;
  r_amountPaid : Z;
  r_status : Status;
  r_needsCoach : bool;
  r_coachAssigned : option string;
  r_paymentDetails : option PaymentDetails;
  r_balance : Z;
  r_amountDue : Z;
  r_checkoutTimestamp : option string;
  r_cancellationReason : option string;
  r_pendingAction : option PendingAction;
  r_productsPurchased : option (list PurchasedItem);
  r_balanceDueDate : option string;
  r_walkinClientId : option string;
  r_isNewWalkin : option bool;
  r_contactNumber : option string;
  r_className : option string;
  r_sessionPlanDetails : option SessionPlanDetails;
  r_carriedOverBalance : option Z;
  r_sessionCompleted : option bool
}.

Definition set_r_amountPaid (v : Z) (x : CheckinRecord) : CheckinRecord :=
  mkCheckinRecord (r_id x) (r_timestamp x) (r_type x) (r_name x)
    (r_gymNumber x) (r_photoUrl x) v (r_status x) (r_needsCoach x)
    (r_coachAssigned x) (r_paymentDetails x) (r_balance x) (r_amountDue x)
    (r_checkoutTimestamp x) (r_cancellationReason x) (r_pendingAction x)
    (r_productsPurchased x) (r_balanceDueDate x) (r_walkinClientId x)
    (r_isNewWalkin x) (r_contactNumber x) (r_className x)
    (r_sessionPlanDetails x) (r_carriedOverBalance x) (r_sessionCompleted x).
Definition set_r_status (v : Status) (x : CheckinRecord) : CheckinRecord :=
  mkCheckinRecord (r_id x) (r_timestamp x) (r_type x) (r_name x)
    (r_gymNumber x) (r_photoUrl x) (r_amountPaid x) v (r_needsCoach x)
    (r_coachAssigned x) (r_paymentDetails x) (r_balance x) (r_amountDue x)
    (r_checkoutTimestamp x) (r_cancellationReason x) (r_pendingAction x)
    (r_productsPurchased x) (r_balanceDueDate x) (r_walkinClientId x)
    (r_isNewWalkin x) (r_contactNumber x) (r_className x)
    (r_sessionPlanDetails x) (r_carriedOverBalance x) (r_sessionCompleted x).
Definition set_r_needsCoach (v : bool) (x : CheckinRecord) : CheckinRecord :=
  mkCheckinRecord (r_id x) (r_timestamp x) (r_type x) (r_name x)
    (r_gymNumber x) (r_photoUrl x) (r_amountPaid x) (r_status x) v
    (r_coachAssigned x) (r_paymentDetails x) (r_balance x) (r_amountDue x)
    (r_checkoutTimestamp x) (r_cancellationReason x) (r_pendingAction x)
    (r_productsPurchased x) (r_balanceDueDate x) (r_walkinClientId x)
    (r_isNewWalkin x) (r_contactNumber x) (r_className x)
    (r_sessionPlanDetails x) (r_carriedOverBalance x) (r_sessionCompleted x).
Definition set_r_coachAssigned (v : option string) (x : CheckinRecord) : CheckinRecord :=
  mkCheckinRecord (r_id x) (r_timestamp x) (r_type x) (r_name x)
    (r_gymNumber x) (r_photoUrl x) (r_amountPaid x) (r_status x)
    (r_needsCoach x) v (r_paymentDetails x) (r_balance x) (r_amountDue x)
    (r_checkoutTimestamp x) (r_cancellationReason x) (r_pendingAction x)
    (r_productsPurchased x) (r_balanceDueDate x) (r_walkinClientId x)
    (r_isNewWalkin x) (r_contactNumber x) (r_className x)
    (r_sessionPlanDetails x) (r_carriedOverBalance x) (r_sessionCompleted x).
Definition set_r_paymentDetails (v : option PaymentDetails) (x : CheckinRecord) : CheckinRecord :=
  mkCheckinRecord (r_id x) (r_timestamp x) (r_type x) (r_name x)
    (r_gymNumber x) (r_photoUrl x) (r_amountPaid x) (r_status x)
    (r_needsCoach x) (r_coachAssigned x) v (r_balance x) (r_amountDue x)
    (r_checkoutTimestamp x) (r_cancellationReason x) (r_pendingAction x)
    (r_productsPurchased x) (r_balanceDueDate x) (r_walkinClientId x)
    (r_isNewWalkin x) (r_contactNumber x) (r_className x)
    (r_sessionPlanDetails x) (r_carriedOverBalance x) (r_sessionCompleted x).
Definition set_r_balance (v : Z) (x : CheckinRecord) : CheckinRecord :=
  mkCheckinRecord (r_id x) (r_timestamp x) (r_type x) (r_name x)
    (r_gymNumber x) (r_photoUrl x) (r_amountPaid x) (r_status x)
    (r_needsCoach x) (r_coachAssigned x) (r_paymentDetails x) v
    (r_amountDue x) (r_checkoutTimestamp x) (r_cancellationReason x)
    (r_pendingAction x) (r_productsPurchased x) (r_balanceDueDate x)
    (r_walkinClientId x) (r_isNewWalkin x) (r_contactNumber x)
    (r_className x) (r_sessionPlanDetails x) (r_carriedOverBalance x)
    (r_sessionCompleted x).
Definition set_r_amountDue (v : Z) (x : CheckinRecord) : CheckinRecord :=
  mkCheckinRecord (r_id x) (r_timestamp x) (r_type x) (r_name x)
    (r_gymNumber x) (r_photoUrl x) (r_amountPaid x) (r_status x)
    (r_needsCoach x) (r_coachAssigned x) (r_paymentDetails x) (r_balance x) v
    (r_checkoutTimestamp x) (r_cancellationReason x) (r_pendingAction x)
    (r_productsPurchased x) (r_balanceDueDate x) (r_walkinClientId x)
    (r_isNewWalkin x) (r_contactNumber x) (r_className x)
    (r_sessionPlanDetails x) (r_carriedOverBalance x) (r_sessionCompleted x).
Definition set_r_checkoutTimestamp (v : option string) (x : CheckinRecord) : CheckinRecord :=
  mkCheckinRecord (r_id x) (r_timestamp x) (r_type x) (r_name x)
    (r_gymNumber x) (r_photoUrl x) (r_amountPaid x) (r_status x)
    (r_needsCoach x) (r_coachAssigned x) (r_paymentDetails x) (r_balance x)
    (r_amountDue x) v (r_cancellationReason x) (r_pendingAction x)
    (r_productsPurchased x) (r_balanceDueDate x) (r_walkinClientId x)
    (r_isNewWalkin x) (r_contactNumber x) (r_className x)
    (r_sessionPlanDetails x) (r_carriedOverBalance x) (r_sessionCompleted x).
Definition set_r_cancellationReason (v : option string) (x : CheckinRecord) : CheckinRecord :=
  mkCheckinRecord (r_id x) (r_timestamp x) (r_type x) (r_name x)
    (r_gymNumber x) (r_photoUrl x) (r_amountPaid x) (r_status x)
    (r_needsCoach x) (r_coachAssigned x) (r_paymentDetails x) (r_balance x)
    (r_amountDue x) (r_checkoutTimestamp x) v (r_pendingAction x)
    (r_productsPurchased x) (r_balanceDueDate x) (r_walkinClientId x)
    (r_isNewWalkin x) (r_contactNumber x) (r_className x)
    (r_sessionPlanDetails x) (r_carriedOverBalance x) (r_sessionCompleted x).
Definition set_r_pendingAction (v : option PendingAction) (x : CheckinRecord) : CheckinRecord :=
  mkCheckinRecord (r_id x) (r_timestamp x) (r_type x) (r_name x)
    (r_gymNumber x) (r_photoUrl x) (r_amountPaid x) (r_status x)
    (r_needsCoach x) (r_coachAssigned x) (r_paymentDetails x) (r_balance x)
    (r_amountDue x) (r_checkoutTimestamp x) (r_cancellationReason x) v
    (r_productsPurchased x) (r_balanceDueDate x) (r_walkinClientId x)
    (r_isNewWalkin x) (r_contactNumber x) (r_className x)
    (r_sessionPlanDetails x) (r_carriedOverBalance x) (r_sessionCompleted x).
Definition set_r_productsPurchased (v : option (list PurchasedItem)) (x : CheckinRecord) : CheckinRecord :=
  mkCheckinRecord (r_id x) (r_timestamp x) (r_type x) (r_name x)
    (r_gymNumber x) (r_photoUrl x) (r_amountPaid x) (r_status x)
    (r_needsCoach x) (r_coachAssigned x) (r_paymentDetails x) (r_balance x)
    (r_amountDue x) (r_checkoutTimestamp x) (r_cancellationReason x)
    (r_pendingAction x) v (r_balanceDueDate x) (r_walkinClientId x)
    (r_isNewWalkin x) (r_contactNumber x) (r_className x)
    (r_sessionPlanDetails x) (r_carriedOverBalance x) (r_sessionCompleted x).
Definition set_r_balanceDueDate (v : option string) (x : CheckinRecord) : CheckinRecord :=
  mkCheckinRecord (r_id x) (r_timestamp x) (r_type x) (r_name x)
    (r_gymNumber x) (r_photoUrl x) (r_amountPaid x) (r_status x)
    (r_needsCoach x) (r_coachAssigned x) (r_paymentDetails x) (r_balance x)
    (r_amountDue x) (r_checkoutTimestamp x) (r_cancellationReason x)
    (r_pendingAction x) (r_productsPurchased x) v (r_walkinClientId x)
    (r_isNewWalkin x) (r_contactNumber x) (r_className x)
    (r_sessionPlanDetails x) (r_carriedOverBalance x) (r_sessionCompleted x).
Definition set_r_walkinClientId (v : option string) (x : CheckinRecord) : CheckinRecord :=
  mkCheckinRecord (r_id x) (r_timestamp x) (r_type x) (r_name x)
    (r_gymNumber x) (r_photoUrl x) (r_amountPaid x) (r_status x)
    (r_needsCoach x) (r_coachAssigned x) (r_paymentDetails x) (r_balance x)
    (r_amountDue x) (r_checkoutTimestamp x) (r_cancellationReason x)
    (r_pendingAction x) (r_productsPurchased x) (r_balanceDueDate x) v
    (r_isNewWalkin x) (r_contactNumber x) (r_className x)
    (r_sessionPlanDetails x) (r_carriedOverBalance x) (r_sessionCompleted x).
Definition set_r_isNewWalkin (v : option bool) (x : CheckinRecord) : CheckinRecord :=
  mkCheckinRecord (r_id x) (r_timestamp x) (r_type x) (r_name x)
    (r_gymNumber x) (r_photoUrl x) (r_amountPaid x) (r_status x)
    (r_needsCoach x) (r_coachAssigned x) (r_paymentDetails x) (r_balance x)
    (r_amountDue x) (r_checkoutTimestamp x) (r_cancellationReason x)
    (r_pendingAction x) (r_productsPurchased x) (r_balanceDueDate x)
    (r_walkinClientId x) v (r_contactNumber x) (r_className x)
    (r_sessionPlanDetails x) (r_carriedOverBalance x) (r_sessionCompleted x).
Definition set_r_className (v : option string) (x : CheckinRecord) : CheckinRecord :=
  mkCheckinRecord (r_id x) (r_timestamp x) (r_type x) (r_name x)
    (r_gymNumber x) (r_photoUrl x) (r_amountPaid x) (r_status x)
    (r_needsCoach x) (r_coachAssigned x) (r_paymentDetails x) (r_balance x)
    (r_amountDue x) (r_checkoutTimestamp x) (r_cancellationReason x)
    (r_pendingAction x) (r_productsPurchased x) (r_balanceDueDate x)
    (r_walkinClientId x) (r_isNewWalkin x) (r_contactNumber x) v
    (r_sessionPlanDetails x) (r_carriedOverBalance x) (r_sessionCompleted x).
Definition set_r_carriedOverBalance (v : option Z) (x : CheckinRecord) : CheckinRecord :=
  mkCheckinRecord (r_id x) (r_timestamp x) (r_type x) (r_name x)
    (r_gymNumber x) (r_photoUrl x) (r_amountPaid x) (r_status x)
    (r_needsCoach x) (r_coachAssigned x) (r_paymentDetails x) (r_balance x)
    (r_amountDue x) (r_checkoutTimestamp x) (r_cancellationReason x)
    (r_pendingAction x) (r_productsPurchased x) (r_balanceDueDate x)
    (r_walkinClientId x) (r_isNewWalkin x) (r_contactNumber x)
    (r_className x) (r_sessionPlanDetails x) v (r_sessionCompleted x).
Definition set_r_sessionCompleted (v : option bool) (x : CheckinRecord) : CheckinRecord :=
  mkCheckinRecord (r_id x) (r_timestamp x) (r_type x) (r_name x)
    (r_gymNumber x) (r_photoUrl x) (r_amountPaid x) (r_status x)
    (r_needsCoach x) (r_coachAssigned x) (r_paymentDetails x) (r_balance x)
    (r_amountDue x) (r_checkoutTimestamp x) (r_cancellationReason x)
    (r_pendingAction x) (r_productsPurchased x) (r_balanceDueDate x)
    (r_walkinClientId x) (r_isNewWalkin x) (r_contactNumber x)
    (r_className x) (r_sessionPlanDetails x) (r_carriedOverBalance x) v.

(** [Omit<CheckinRecord, 'id' | 'timestamp'>] as the callers build it: the
    kiosk casts object literals that leave [amountDue] and [balance] out, and
    [addCheckinRecord] reads the three amounts with [??]. *)
Record Draft := mkDraft {
  d_type : ClientType;
  d_name : string;
  d_gymNumber : option string;
  d_photoUrl : option string;
  d_amountPaid : option Z;
  d_status : Status;
  d_needsCoach : bool;
  d_coachAssigned : option string;
  d_paymentDetails : option PaymentDetails;
  d_balance : option Z;
  d_amountDue : option Z;
  d_checkoutTimestamp : option string;
  d_cancellationReason : option string;
  d_pendingAction : option PendingAction;
  d_productsPurchased : option (list PurchasedItem);
  d_balanceDueDate : option string;
  d_walkinClientId : option string;
  d_isNewWalkin : option bool;
  d_contactNumber : option string;
  d_className : option string;
  d_sessionPlanDetails : option SessionPlanDetails;
  d_carriedOverBalance : option Z;
  d_sessionCompleted : option bool
}.

(** [Partial<Omit<CheckinRecord, 'id'>>]: [Some v] is a key that is there. *)
Record Updates := mkUpdates {
  u_timestamp : option (string);
  u_type : option (ClientType);
  u_name : option (string);
  u_gymNumber : option (option string);
  u_photoUrl : option (option string);
  u_amountPaid : option (Z);
  u_status : option (Status);
  u_needsCoach : option (bool);
  u_coachAssigned : option (option string);
  u_paymentDetails : option (option PaymentDetails);
  u_balance : option (Z);
  u_amountDue : option (Z);
  u_checkoutTimestamp : option (option string);
  u_cancellationReason : option (option string);
  u_pendingAction : option (option PendingAction);
  u_productsPurchased : option (option (list PurchasedItem));
  u_balanceDueDate : option (option string);
  u_walkinClientId : option (option string);
  u_isNewWalkin : option (option bool);
  u_contactNumber : option (option string);
  u_className : option (option string);
  u_sessionPlanDetails : option (option SessionPlanDetails);
  u_carriedOverBalance : option (option Z);
  u_sessionCompleted : option (option bool)
}.


Record WalkinClient := mkWalkinClient {
  w_id : string;
  w_name : string;
  w_contactNumber : string;
  w_photoUrl : option string;
  w_lastVisit : string;
  w_sessionPlan : option SessionPlan;
  w_history : option (list MemberHistoryEntry)
}.

Definition set_w_lastVisit (v : string) (x : WalkinClient) : WalkinClient :=
  mkWalkinClient (w_id x) (w_name x) (w_contactNumber x) (w_photoUrl x) v
    (w_sessionPlan x) (w_history x).
Definition set_w_sessionPlan (v : option SessionPlan) (x : WalkinClient) : WalkinClient :=
  mkWalkinClient (w_id x) (w_name x) (w_contactNumber x) (w_photoUrl x)
    (w_lastVisit x) v (w_history x).
Definition set_w_history (v : option (list MemberHistoryEntry)) (x : WalkinClient) : WalkinClient :=
  mkWalkinClient (w_id x) (w_name x) (w_contactNumber x) (w_photoUrl x)
    (w_lastVisit x) (w_sessionPlan x) v.


Record Member := mkMember {
  m_id : string;
  m_name : string;
  m_photoUrl : option string;
  m_status : string;
  m_membershipType : string;
  m_details : string;
  m_hasCoach : bool;
  m_coachName : option string;
  m_trainingType : option string;
  m_membershipStartDate : string;
  m_subscriptionStartDate : option string;
  m_lastPaymentDate : string;
  m_dueDate : option string;
  m_totalSessions : option Z;
  m_sessionsUsed : option Z;
  m_daysRemainingOnFreeze : option Z;
  m_coachPlanId : option string;
  m_sessionExpiryDate : option string;
  m_membershipFeeLastPaid : option string;
  m_membershipFeeDueDate : option string;
  m_lockerStartDate : option string;
  m_lockerDueDate : option string;
  m_classId : option string;
  m_className : option string;
  m_history : option (list MemberHistoryEntry)
}.

Definition set_m_id (v : string) (x : Member) : Member :=
  mkMember v (m_name x) (m_photoUrl x) (m_status x) (m_membershipType x)
    (m_details x) (m_hasCoach x) (m_coachName x) (m_trainingType x)
    (m_membershipStartDate x) (m_subscriptionStartDate x)
    (m_lastPaymentDate x) (m_dueDate x) (m_totalSessions x)
    (m_sessionsUsed x) (m_daysRemainingOnFreeze x) (m_coachPlanId x)
    (m_sessionExpiryDate x) (m_membershipFeeLastPaid x)
    (m_membershipFeeDueDate x) (m_lockerStartDate x) (m_lockerDueDate x)
    (m_classId x) (m_className x) (m_history x).
Definition set_m_photoUrl (v : option string) (x : Member) : Member :=
  mkMember (m_id x) (m_name x) v (m_status x) (m_membershipType x)
    (m_details x) (m_hasCoach x) (m_coachName x) (m_trainingType x)
    (m_membershipStartDate x) (m_subscriptionStartDate x)
    (m_lastPaymentDate x) (m_dueDate x) (m_totalSessions x)
    (m_sessionsUsed x) (m_daysRemainingOnFreeze x) (m_coachPlanId x)
    (m_sessionExpiryDate x) (m_membershipFeeLastPaid x)
    (m_membershipFeeDueDate x) (m_lockerStartDate x) (m_lockerDueDate x)
    (m_classId x) (m_className x) (m_history x).
Definition set_m_status (v : string) (x : Member) : Member :=
  mkMember (m_id x) (m_name x) (m_photoUrl x) v (m_membershipType x)
    (m_details x) (m_hasCoach x) (m_coachName x) (m_trainingType x)
    (m_membershipStartDate x) (m_subscriptionStartDate x)
    (m_lastPaymentDate x) (m_dueDate x) (m_totalSessions x)
    (m_sessionsUsed x) (m_daysRemainingOnFreeze x) (m_coachPlanId x)
    (m_sessionExpiryDate x) (m_membershipFeeLastPaid x)
    (m_membershipFeeDueDate x) (m_lockerStartDate x) (m_lockerDueDate x)
    (m_classId x) (m_className x) (m_history x).
Definition set_m_membershipType (v : string) (x : Member) : Member :=
  mkMember (m_id x) (m_name x) (m_photoUrl x) (m_status x) v (m_details x)
    (m_hasCoach x) (m_coachName x) (m_trainingType x)
    (m_membershipStartDate x) (m_subscriptionStartDate x)
    (m_lastPaymentDate x) (m_dueDate x) (m_totalSessions x)
    (m_sessionsUsed x) (m_daysRemainingOnFreeze x) (m_coachPlanId x)
    (m_sessionExpiryDate x) (m_membershipFeeLastPaid x)
    (m_membershipFeeDueDate x) (m_lockerStartDate x) (m_lockerDueDate x)
    (m_classId x) (m_className x) (m_history x).
Definition set_m_hasCoach (v : bool) (x : Member) : Member :=
  mkMember (m_id x) (m_name x) (m_photoUrl x) (m_status x)
    (m_membershipType x) (m_details x) v (m_coachName x) (m_trainingType x)
    (m_membershipStartDate x) (m_subscriptionStartDate x)
    (m_lastPaymentDate x) (m_dueDate x) (m_totalSessions x)
    (m_sessionsUsed x) (m_daysRemainingOnFreeze x) (m_coachPlanId x)
    (m_sessionExpiryDate x) (m_membershipFeeLastPaid x)
    (m_membershipFeeDueDate x) (m_lockerStartDate x) (m_lockerDueDate x)
    (m_classId x) (m_className x) (m_history x).
Definition set_m_trainingType (v : option string) (x : Member) : Member :=
  mkMember (m_id x) (m_name x) (m_photoUrl x) (m_status x)
    (m_membershipType x) (m_details x) (m_hasCoach x) (m_coachName x) v
    (m_membershipStartDate x) (m_subscriptionStartDate x)
    (m_lastPaymentDate x) (m_dueDate x) (m_totalSessions x)
    (m_sessionsUsed x) (m_daysRemainingOnFreeze x) (m_coachPlanId x)
    (m_sessionExpiryDate x) (m_membershipFeeLastPaid x)
    (m_membershipFeeDueDate x) (m_lockerStartDate x) (m_lockerDueDate x)
    (m_classId x) (m_className x) (m_history x).
Definition set_m_membershipStartDate (v : string) (x : Member) : Member :=
  mkMember (m_id x) (m_name x) (m_photoUrl x) (m_status x)
    (m_membershipType x) (m_details x) (m_hasCoach x) (m_coachName x)
    (m_trainingType x) v (m_subscriptionStartDate x) (m_lastPaymentDate x)
    (m_dueDate x) (m_totalSessions x) (m_sessionsUsed x)
    (m_daysRemainingOnFreeze x) (m_coachPlanId x) (m_sessionExpiryDate x)
    (m_membershipFeeLastPaid x) (m_membershipFeeDueDate x)
    (m_lockerStartDate x) (m_lockerDueDate x) (m_classId x) (m_className x)
    (m_history x).
Definition set_m_subscriptionStartDate (v : option string) (x : Member) : Member :=
  mkMember (m_id x) (m_name x) (m_photoUrl x) (m_status x)
    (m_membershipType x) (m_details x) (m_hasCoach x) (m_coachName x)
    (m_trainingType x) (m_membershipStartDate x) v (m_lastPaymentDate x)
    (m_dueDate x) (m_totalSessions x) (m_sessionsUsed x)
    (m_daysRemainingOnFreeze x) (m_coachPlanId x) (m_sessionExpiryDate x)
    (m_membershipFeeLastPaid x) (m_membershipFeeDueDate x)
    (m_lockerStartDate x) (m_lockerDueDate x) (m_classId x) (m_className x)
    (m_history x).
Definition set_m_lastPaymentDate (v : string) (x : Member) : Member :=
  mkMember (m_id x) (m_name x) (m_photoUrl x) (m_status x)
    (m_membershipType x) (m_details x) (m_hasCoach x) (m_coachName x)
    (m_trainingType x) (m_membershipStartDate x) (m_subscriptionStartDate x)
    v (m_dueDate x) (m_totalSessions x) (m_sessionsUsed x)
    (m_daysRemainingOnFreeze x) (m_coachPlanId x) (m_sessionExpiryDate x)
    (m_membershipFeeLastPaid x) (m_membershipFeeDueDate x)
    (m_lockerStartDate x) (m_lockerDueDate x) (m_classId x) (m_className x)
    (m_history x).
Definition set_m_dueDate (v : option string) (x : Member) : Member :=
  mkMember (m_id x) (m_name x) (m_photoUrl x) (m_status x)
    (m_membershipType x) (m_details x) (m_hasCoach x) (m_coachName x)
    (m_trainingType x) (m_membershipStartDate x) (m_subscriptionStartDate x)
    (m_lastPaymentDate x) v (m_totalSessions x) (m_sessionsUsed x)
    (m_daysRemainingOnFreeze x) (m_coachPlanId x) (m_sessionExpiryDate x)
    (m_membershipFeeLastPaid x) (m_membershipFeeDueDate x)
    (m_lockerStartDate x) (m_lockerDueDate x) (m_classId x) (m_className x)
    (m_history x).
Definition set_m_totalSessions (v : option Z) (x : Member) : Member :=
  mkMember (m_id x) (m_name x) (m_photoUrl x) (m_status x)
    (m_membershipType x) (m_details x) (m_hasCoach x) (m_coachName x)
    (m_trainingType x) (m_membershipStartDate x) (m_subscriptionStartDate x)
    (m_lastPaymentDate x) (m_dueDate x) v (m_sessionsUsed x)
    (m_daysRemainingOnFreeze x) (m_coachPlanId x) (m_sessionExpiryDate x)
    (m_membershipFeeLastPaid x) (m_membershipFeeDueDate x)
    (m_lockerStartDate x) (m_lockerDueDate x) (m_classId x) (m_className x)
    (m_history x).
Definition set_m_sessionsUsed (v : option Z) (x : Member) : Member :=
  mkMember (m_id x) (m_name x) (m_photoUrl x) (m_status x)
    (m_membershipType x) (m_details x) (m_hasCoach x) (m_coachName x)
    (m_trainingType x) (m_membershipStartDate x) (m_subscriptionStartDate x)
    (m_lastPaymentDate x) (m_dueDate x) (m_totalSessions x) v
    (m_daysRemainingOnFreeze x) (m_coachPlanId x) (m_sessionExpiryDate x)
    (m_membershipFeeLastPaid x) (m_membershipFeeDueDate x)
    (m_lockerStartDate x) (m_lockerDueDate x) (m_classId x) (m_className x)
    (m_history x).
Definition set_m_daysRemainingOnFreeze (v : option Z) (x : Member) : Member :=
  mkMember (m_id x) (m_name x) (m_photoUrl x) (m_status x)
    (m_membershipType x) (m_details x) (m_hasCoach x) (m_coachName x)
    (m_trainingType x) (m_membershipStartDate x) (m_subscriptionStartDate x)
    (m_lastPaymentDate x) (m_dueDate x) (m_totalSessions x)
    (m_sessionsUsed x) v (m_coachPlanId x) (m_sessionExpiryDate x)
    (m_membershipFeeLastPaid x) (m_membershipFeeDueDate x)
    (m_lockerStartDate x) (m_lockerDueDate x) (m_classId x) (m_className x)
    (m_history x).
Definition set_m_sessionExpiryDate (v : option string) (x : Member) : Member :=
  mkMember (m_id x) (m_name x) (m_photoUrl x) (m_status x)
    (m_membershipType x) (m_details x) (m_hasCoach x) (m_coachName x)
    (m_trainingType x) (m_membershipStartDate x) (m_subscriptionStartDate x)
    (m_lastPaymentDate x) (m_dueDate x) (m_totalSessions x)
    (m_sessionsUsed x) (m_daysRemainingOnFreeze x) (m_coachPlanId x) v
    (m_membershipFeeLastPaid x) (m_membershipFeeDueDate x)
    (m_lockerStartDate x) (m_lockerDueDate x) (m_classId x) (m_className x)
    (m_history x).
Definition set_m_membershipFeeLastPaid (v : option string) (x : Member) : Member :=
  mkMember (m_id x) (m_name x) (m_photoUrl x) (m_status x)
    (m_membershipType x) (m_details x) (m_hasCoach x) (m_coachName x)
    (m_trainingType x) (m_membershipStartDate x) (m_subscriptionStartDate x)
    (m_lastPaymentDate x) (m_dueDate x) (m_totalSessions x)
    (m_sessionsUsed x) (m_daysRemainingOnFreeze x) (m_coachPlanId x)
    (m_sessionExpiryDate x) v (m_membershipFeeDueDate x)
    (m_lockerStartDate x) (m_lockerDueDate x) (m_classId x) (m_className x)
    (m_history x).
Definition set_m_membershipFeeDueDate (v : option string) (x : Member) : Member :=
  mkMember (m_id x) (m_name x) (m_photoUrl x) (m_status x)
    (m_membershipType x) (m_details x) (m_hasCoach x) (m_coachName x)
    (m_trainingType x) (m_membershipStartDate x) (m_subscriptionStartDate x)
    (m_lastPaymentDate x) (m_dueDate x) (m_totalSessions x)
    (m_sessionsUsed x) (m_daysRemainingOnFreeze x) (m_coachPlanId x)
    (m_sessionExpiryDate x) (m_membershipFeeLastPaid x) v
    (m_lockerStartDate x) (m_lockerDueDate x) (m_classId x) (m_className x)
    (m_history x).
Definition set_m_lockerStartDate (v : option string) (x : Member) : Member :=
  mkMember (m_id x) (m_name x) (m_photoUrl x) (m_status x)
    (m_membershipType x) (m_details x) (m_hasCoach x) (m_coachName x)
    (m_trainingType x) (m_membershipStartDate x) (m_subscriptionStartDate x)
    (m_lastPaymentDate x) (m_dueDate x) (m_totalSessions x)
    (m_sessionsUsed x) (m_daysRemainingOnFreeze x) (m_coachPlanId x)
    (m_sessionExpiryDate x) (m_membershipFeeLastPaid x)
    (m_membershipFeeDueDate x) v (m_lockerDueDate x) (m_classId x)
    (m_className x) (m_history x).
Definition set_m_lockerDueDate (v : option string) (x : Member) : Member :=
  mkMember (m_id x) (m_name x) (m_photoUrl x) (m_status x)
    (m_membershipType x) (m_details x) (m_hasCoach x) (m_coachName x)
    (m_trainingType x) (m_membershipStartDate x) (m_subscriptionStartDate x)
    (m_lastPaymentDate x) (m_dueDate x) (m_totalSessions x)
    (m_sessionsUsed x) (m_daysRemainingOnFreeze x) (m_coachPlanId x)
    (m_sessionExpiryDate x) (m_membershipFeeLastPaid x)
    (m_membershipFeeDueDate x) (m_lockerStartDate x) v (m_classId x)
    (m_className x) (m_history x).
Definition set_m_history (v : option (list MemberHistoryEntry)) (x : Member) : Member :=
  mkMember (m_id x) (m_name x) (m_photoUrl x) (m_status x)
    (m_membershipType x) (m_details x) (m_hasCoach x) (m_coachName x)
    (m_trainingType x) (m_membershipStartDate x) (m_subscriptionStartDate x)
    (m_lastPaymentDate x) (m_dueDate x) (m_totalSessions x)
    (m_sessionsUsed x) (m_daysRemainingOnFreeze x) (m_coachPlanId x)
    (m_sessionExpiryDate x) (m_membershipFeeLastPaid x)
    (m_membershipFeeDueDate x) (m_lockerStartDate x) (m_lockerDueDate x)
    (m_classId x) (m_className x) v.

End Types.

(** [prev.map(f)] where [f] also writes a variable of the enclosing function
    or another state cell: the written state is threaded through the list
    from left to right. *)
Fixpoint mapAccum {S A B} (f : S -> A -> S * B) (s : S) (l : list A)
  : S * list B :=
  match l with
  | [] => (s, [])
  | a :: r =>
      let '(s1, b) := f s a in
      let '(s2, bs) := mapAccum f s1 r in
      (s2, b :: bs)
  end.

(* ====================================================================== *)
(** * hooks/useWalkinClients.ts *)
(* ====================================================================== *)

Module WalkinClients.
Import DateUtils Types.

Record UseResult := mkUseResult {
  success : bool;
  message : string
}.

Definition addHistoryEntryToClient (now : Instant) (client : WalkinClient)
    (type : HistoryEntryType) (title : string) (details : option string)
    (paymentAmount : option Z) : WalkinClient :=
  let newEntry := mkHistoryEntry (getLocalISOString now) type title details paymentAmount in
  set_w_history (Some (newEntry :: JS.nullish (w_history client) [])) client.

(** [clientData] has the type [Omit<WalkinClient, 'id'>]: its [w_id] is not
    read.  [nowMs] is the reading of [Date.now()]. *)
Definition addWalkinClient (now : Instant) (nowMs : Z) (clientData : WalkinClient)
    (sessionPlan : option SessionPlan) (prev : list WalkinClient)
  : WalkinClient * list WalkinClient :=
  let newClient0 :=
    mkWalkinClient ("walkin-" +:+ JS.numToString nowMs) (w_name clientData)
      (w_contactNumber clientData) (w_photoUrl clientData) (w_lastVisit clientData)
      sessionPlan (w_history clientData) in
  let newClient1 :=
    addHistoryEntryToClient now newClient0 status_change "Client Created"
      (Some ("Client profile created for " +:+ w_name newClient0 +:+ ".")) None in
  let newClient :=
    match sessionPlan with
    | Some sp =>
        addHistoryEntryToClient now newClient1 payment "Session Plan Added"
          (Some ("Initial plan: " +:+ sp_name sp +:+ " ("
                 +:+ JS.numToString (sp_total sp) +:+ " sessions).")) None
    | None => newClient1
    end in
  (newClient, newClient :: prev).

Definition updateWalkinClient (now : Instant) (updatedClient : WalkinClient)
    (prev : list WalkinClient) : list WalkinClient :=
  map (fun c =>
         if String.eqb (w_id c) (w_id updatedClient)
         then addHistoryEntryToClient now updatedClient status_change
                "Client Details Updated" (Some "Profile information was modified.") None
         else c) prev.

Definition updateWalkinClientSessionPlan (now : Instant) (clientId : string)
    (sessionPlan : option SessionPlan) (prev : list WalkinClient)
  : list WalkinClient :=
  map (fun c =>
         if String.eqb (w_id c) clientId then
           let clientWithPlan := set_w_sessionPlan sessionPlan c in
           match sessionPlan with
           | Some sp =>
               addHistoryEntryToClient now clientWithPlan payment "Session Plan Purchased"
                 (Some ("Plan: " +:+ sp_name sp +:+ " ("
                        +:+ JS.numToString (sp_total sp) +:+ " sessions).")) None
           | None => clientWithPlan
           end
         else c) prev.

Definition deleteWalkinClient (id : string) (prev : list WalkinClient)
  : list WalkinClient :=
  filter (fun c => w_id c ≠ id) prev.

(** The body of the [map] callback of [useSessionForWalkinClient]: the
    variable [result] of the enclosing function is the threaded state. *)
Definition useSessionStep (now : Instant) (clientId : string)
    (result : UseResult) (c : WalkinClient) : UseResult * WalkinClient :=
  if String.eqb (w_id c) clientId then
    match w_sessionPlan c with
    | None => (mkUseResult false "Client does not have a session plan.", c)
    | Some sessionPlan =>
        if sp_used sessionPlan >=? sp_total sessionPlan
        then (mkUseResult false "No sessions remaining.", c)
        else
          let todayYMD := getTodayYMD now in
          let updatedPlan :=
            mkSessionPlan (sp_name sessionPlan) (sp_total sessionPlan)
              (sp_used sessionPlan + 1) (Some todayYMD) in
          let updatedClient :=
            set_w_lastVisit todayYMD (set_w_sessionPlan (Some updatedPlan) c) in
          let remaining := sp_total updatedPlan - sp_used updatedPlan in
          (mkUseResult true
             ("Session used for " +:+ w_name c +:+ ". "
              +:+ JS.numToString remaining +:+ " sessions remaining."),
           addHistoryEntryToClient now updatedClient session_update "Session Used"
             (Some ("1 session used. " +:+ JS.numToString remaining
                    +:+ " sessions remaining.")) None)
    end
  else (result, c).

Definition useSessionForWalkinClient (now : Instant) (clientId : string)
    (prev : list WalkinClient) : list WalkinClient * UseResult :=
  let '(result, next) :=
    mapAccum (useSessionStep now clientId)
      (mkUseResult false "An unknown error occurred.") prev in
  (next, result).

Definition markTaekwondoSessionUsed (now : Instant) (clientId : string)
    (prev : list WalkinClient) : list WalkinClient * UseResult :=
  useSessionForWalkinClient now clientId prev.

Definition addPaymentHistoryToWalkinClient (now : Instant) (clientId : string)
    (amount : Z) (notes : string) (prev : list WalkinClient) : list WalkinClient :=
  map (fun c =>
         if String.eqb (w_id c) clientId
         then addHistoryEntryToClient now c payment "Payment Made" (Some notes) (Some amount)
         else c) prev.

End WalkinClients.

(* ====================================================================== *)
(** * hooks/useCheckins.ts *)
(* ====================================================================== *)

Module Checkins.
Import DateUtils Types.

(** The readings of the environment during one operation: the clock, the
    value of [Date.now()], and the text [`item-${Date.now()}-${Math.random()}`]
    produced for the [i]-th line item. *)
Record Env := mkEnv {
  now : Instant;
  nowMs : Z;
  freshItemId : nat -> string
}.

Definition sameId (recordId : string) (r : CheckinRecord) : bool :=
  String.eqb (r_id r) recordId.

Definition sumAmounts (plans : list PricePlan) : Z :=
  foldl (fun sum plan => sum + p_amount plan) 0 plans.

(** ** addCheckinRecord *)

Definition clientIdOf (recordData : Draft) : option string :=
  match d_type recordData with
  | Member_t => d_gymNumber recordData
  | Walkin_t => d_walkinClientId recordData
  end.

(** [r[clientIdentifierKey]] *)
Definition clientKeyOf (recordData : Draft) (r : CheckinRecord) : option string :=
  match d_type recordData with
  | Member_t => r_gymNumber r
  | Walkin_t => r_walkinClientId r
  end.

(** The test of the carry-over loop. *)
Definition carriesBalance (recordData : Draft) (r : CheckinRecord) : bool :=
  JS.strictEqStr (clientKeyOf recordData r) (clientIdOf recordData)
  && (r_balance r >? 0)
  && JS.truthyStr (r_checkoutTimestamp r).

(** One round of the loop over [prevRecords], on [totalPreviousBalance] and
    [recordIdsWithBalance]. *)
Definition scanStep (recordData : Draft) (acc : Z * gset string)
    (r : CheckinRecord) : Z * gset string :=
  if carriesBalance recordData r
  then (acc.1 + r_balance r, {[ r_id r ]} ∪ acc.2)
  else acc.

Definition scanPrevious (recordData : Draft) (prevRecords : list CheckinRecord)
  : Z * gset string :=
  if JS.truthyStr (clientIdOf recordData)
  then foldl (scanStep recordData) (0, ∅) prevRecords
  else (0, ∅).

Definition draftPlanAmount (recordData : Draft) : option Z :=
  pd_amount <$> d_paymentDetails recordData.

Definition baseRecord (env : Env) (recordData : Draft) : CheckinRecord :=
  mkCheckinRecord
    ("rec-" +:+ JS.numToString (nowMs env))
    (getLocalISOString (now env))
    (d_type recordData) (d_name recordData) (d_gymNumber recordData)
    (d_photoUrl recordData)
    (JS.nullish (d_amountPaid recordData) 0)
    (d_status recordData) (d_needsCoach recordData) (d_coachAssigned recordData)
    (d_paymentDetails recordData)
    (JS.nullish (d_balance recordData)
       (JS.nullish (draftPlanAmount recordData) 0
        - JS.nullish (d_amountPaid recordData) 0))
    (JS.nullish (d_amountDue recordData) (JS.nullish (draftPlanAmount recordData) 0))
    (d_checkoutTimestamp recordData) (d_cancellationReason recordData)
    (d_pendingAction recordData) (d_productsPurchased recordData)
    (d_balanceDueDate recordData) (d_walkinClientId recordData)
    (d_isNewWalkin recordData) (d_contactNumber recordData)
    (d_className recordData) (d_sessionPlanDetails recordData)
    (d_carriedOverBalance recordData) (d_sessionCompleted recordData).

Definition recordWithBalance (totalPreviousBalance : Z) (base : CheckinRecord)
  : CheckinRecord :=
  if totalPreviousBalance >? 0 then
    set_r_paymentDetails
      ((fun existingPaymentDetails =>
          mkPaymentDetails
            (pd_plan existingPaymentDetails +:+ " (+₱"
             +:+ JS.toFixed2 totalPreviousBalance +:+ " prev bal)")
            (pd_amount existingPaymentDetails))
         <$> r_paymentDetails base)
      (set_r_balance (r_balance base + totalPreviousBalance)
         (set_r_amountDue (r_amountDue base + totalPreviousBalance)
            (set_r_carriedOverBalance (Some totalPreviousBalance) base)))
  else base.

Definition newRecord (recordData : Draft) (withBalance : CheckinRecord)
  : CheckinRecord :=
  if bool_decide (r_status withBalance = Pending)
     && negb (bool_decide (is_Some (d_amountDue recordData)))
  then
    let dueAmount := JS.orZero (pd_amount <$> r_paymentDetails withBalance) in
    let due := dueAmount + JS.orZero (r_carriedOverBalance withBalance) in
    set_r_balance due (set_r_amountPaid 0 (set_r_amountDue due withBalance))
  else withBalance.

Definition addCheckinRecord (env : Env) (recordData : Draft)
    (prevRecords : list CheckinRecord) : list CheckinRecord :=
  let '(totalPreviousBalance, recordIdsWithBalance) :=
    scanPrevious recordData prevRecords in
  let updatedPrevRecords :=
    map (fun r =>
           if bool_decide (r_id r ∈ recordIdsWithBalance)
           then set_r_balance 0 r
           else r) prevRecords in
  newRecord recordData
    (recordWithBalance totalPreviousBalance (baseRecord env recordData))
  :: updatedPrevRecords.

(** ** confirmPendingRecord *)

(** A key of the later object of a spread overrides the earlier one. *)
Definition override {A} (later : option A) (earlier : A) : A :=
  match later with Some v => v | None => earlier end.

Definition applyUpdates (r : CheckinRecord) (u : Updates) : CheckinRecord :=
  mkCheckinRecord (r_id r) (override (u_timestamp u) (r_timestamp r))
    (override (u_type u) (r_type r)) (override (u_name u) (r_name r))
    (override (u_gymNumber u) (r_gymNumber r))
    (override (u_photoUrl u) (r_photoUrl r))
    (override (u_amountPaid u) (r_amountPaid r))
    (override (u_status u) (r_status r))
    (override (u_needsCoach u) (r_needsCoach r))
    (override (u_coachAssigned u) (r_coachAssigned r))
    (override (u_paymentDetails u) (r_paymentDetails r))
    (override (u_balance u) (r_balance r))
    (override (u_amountDue u) (r_amountDue r))
    (override (u_checkoutTimestamp u) (r_checkoutTimestamp r))
    (override (u_cancellationReason u) (r_cancellationReason r))
    (override (u_pendingAction u) (r_pendingAction r))
    (override (u_productsPurchased u) (r_productsPurchased r))
    (override (u_balanceDueDate u) (r_balanceDueDate r))
    (override (u_walkinClientId u) (r_walkinClientId r))
    (override (u_isNewWalkin u) (r_isNewWalkin r))
    (override (u_contactNumber u) (r_contactNumber r))
    (override (u_className u) (r_className r))
    (override (u_sessionPlanDetails u) (r_sessionPlanDetails r))
    (override (u_carriedOverBalance u) (r_carriedOverBalance r))
    (override (u_sessionCompleted u) (r_sessionCompleted r)).

(** The walk-in part of the callback: the walk-in collection is the state
    written through [addWalkinClient], [updateWalkinClient] and
    [updateWalkinClientSessionPlan]. *)
Definition confirmWalkin (env : Env) (walkins : list WalkinClient)
    (updatedRecord : CheckinRecord) : list WalkinClient * CheckinRecord :=
  if bool_decide (r_isNewWalkin updatedRecord = Some true) then
    let sessionPlan :=
      (fun d => mkSessionPlan (spd_name d) (spd_total d) 0 None)
        <$> r_sessionPlanDetails updatedRecord in
    let clientData id :=
      mkWalkinClient id (r_name updatedRecord)
        (JS.nullish (r_contactNumber updatedRecord) "")
        (r_photoUrl updatedRecord) (getTodayYMD (now env)) None None in
    if JS.truthyStr (r_walkinClientId updatedRecord) then
      let walkinClientId := JS.nullish (r_walkinClientId updatedRecord) "" in
      let walkins1 :=
        WalkinClients.updateWalkinClient (now env) (clientData walkinClientId) walkins in
      let walkins2 :=
        match sessionPlan with
        | Some _ =>
            WalkinClients.updateWalkinClientSessionPlan (now env)
              walkinClientId sessionPlan walkins1
        | None => walkins1
        end in
      (walkins2, set_r_isNewWalkin (Some false) updatedRecord)
    else
      let '(client, walkins1) :=
        WalkinClients.addWalkinClient (now env) (nowMs env) (clientData "")
          sessionPlan walkins in
      (walkins1,
       set_r_isNewWalkin (Some false)
         (set_r_walkinClientId (Some (w_id client)) updatedRecord))
  else (walkins, updatedRecord).

Definition confirmStep (env : Env) (id : string) (updates : option Updates)
    (walkins : list WalkinClient) (r : CheckinRecord)
  : list WalkinClient * CheckinRecord :=
  if negb (sameId id r) then (walkins, r)
  else
    let updatedRecord :=
      match updates with
      | Some u => applyUpdates r u
      | None => r
      end in
    let '(walkins1, updatedRecord1) := confirmWalkin env walkins updatedRecord in
    (walkins1, set_r_pendingAction None (set_r_status Confirmed updatedRecord1)).

Definition confirmPendingRecord (env : Env) (id : string)
    (updates : option Updates) (walkins : list WalkinClient)
    (prev : list CheckinRecord) : list CheckinRecord * list WalkinClient :=
  let '(walkins1, next) := mapAccum (confirmStep env id updates) walkins prev in
  (next, walkins1).

(** ** The operations keyed by a record id *)

Definition assignCoachToRecord (recordId coachName : string)
    (prev : list CheckinRecord) : list CheckinRecord :=
  map (fun r => if sameId recordId r then set_r_coachAssigned (Some coachName) r else r) prev.

Definition cancelPendingRecord (id reason : string) (prev : list CheckinRecord)
  : list CheckinRecord :=
  map (fun r =>
         if sameId id r
         then set_r_cancellationReason (Some reason) (set_r_status Cancelled r)
         else r) prev.

Definition isPendingCheckout (r : CheckinRecord) : bool :=
  bool_decide (r_pendingAction r = Some act_checkout).

Definition checkoutAlert (record : CheckinRecord) : string :=
  "Cannot confirm checkout for " +:+ r_name record
    +:+ ". An outstanding balance of ₱" +:+ JS.toFixed2 (r_balance record)
    +:+ " must be settled first or a future payment date must be set.".

(** The guard of [confirmCheckout] on the record that [find] returns. *)
Definition checkoutBlocked (recordId : string) (balanceDueDate : option string)
    (prev : list CheckinRecord) : option CheckinRecord :=
  match List.find (sameId recordId) prev with
  | Some record =>
      if isPendingCheckout record && (r_balance record >? 0)
         && negb (JS.truthyStr balanceDueDate)
      then Some record
      else None
  | None => None
  end.

Definition checkOut (env : Env) (balanceDueDate : option string)
    (r : CheckinRecord) : CheckinRecord :=
  set_r_balanceDueDate
    (if JS.truthyStr balanceDueDate then balanceDueDate else r_balanceDueDate r)
    (set_r_checkoutTimestamp (Some (getLocalISOString (now env)))
       (set_r_pendingAction None r)).

(** The second component is the message passed to [alert], if any. *)
Definition confirmCheckout (env : Env) (recordId : string)
    (balanceDueDate : option string) (prev : list CheckinRecord)
  : list CheckinRecord * option string :=
  match checkoutBlocked recordId balanceDueDate prev with
  | Some record => (prev, Some (checkoutAlert record))
  | None =>
      (map (fun r =>
              if sameId recordId r && isPendingCheckout r
              then checkOut env balanceDueDate r
              else r) prev,
       None)
  end.

Definition cancelPendingCheckout (recordId : string) (prev : list CheckinRecord)
  : list CheckinRecord :=
  map (fun r =>
         if sameId recordId r && isPendingCheckout r
         then set_r_pendingAction None r
         else r) prev.

Definition productsOrEmpty (r : CheckinRecord) : list PurchasedItem :=
  JS.nullish (r_productsPurchased r) [].

Definition addCheckoutRecord (env : Env) (recordId : string)
    (products : list ProductLine) (total : Z) (prev : list CheckinRecord)
  : list CheckinRecord :=
  map (fun r =>
         if sameId recordId r then
           let productsWithId :=
             imap (fun i p =>
                     mkPurchasedItem (freshItemId env i) (pl_productId p)
                       (pl_name p) (pl_quantity p) (pl_price p)) products in
           set_r_balance (r_balance r + total)
             (set_r_amountDue (r_amountDue r + total)
                (set_r_productsPurchased
                   (Some (productsOrEmpty r ++ productsWithId)) r))
         else r) prev.

Definition addPaymentToRecord (recordId : string) (paymentAmount : Z)
    (newBalanceDueDate : option string) (prev : list CheckinRecord)
  : list CheckinRecord :=
  map (fun r =>
         if sameId recordId r then
           let newAmountPaid := r_amountPaid r + paymentAmount in
           let newBalance := r_balance r - paymentAmount in
           set_r_balanceDueDate
             (if newBalance >? 0 then newBalanceDueDate else None)
             (set_r_balance newBalance (set_r_amountPaid newAmountPaid r))
         else r) prev.

Definition processPayment (recordId : string) (paymentAmount : Z)
    (settledProductIds : list string) (newBalanceDueDate : option string)
    (prev : list CheckinRecord) : list CheckinRecord :=
  map (fun r =>
         if negb (sameId recordId r) then r
         else
           let newAmountPaid := r_amountPaid r + paymentAmount in
           let newBalance := r_balance r - paymentAmount in
           let newProductsPurchased :=
             filter (fun p => it_productId p ∉ settledProductIds)
               <$> r_productsPurchased r in
           set_r_balanceDueDate
             (if newBalance >? 0 then newBalanceDueDate else None)
             (set_r_productsPurchased newProductsPurchased
                (set_r_balance newBalance (set_r_amountPaid newAmountPaid r))))
      prev.

(** The second component is the returned [success]. *)
Definition requestCheckoutByRecordId (recordId : string)
    (prev : list CheckinRecord) : list CheckinRecord * bool :=
  match List.find (sameId recordId) prev with
  | Some record =>
      if bool_decide (r_status record = Confirmed)
         && negb (JS.truthyStr (r_checkoutTimestamp record))
         && negb (bool_decide (is_Some (r_pendingAction record)))
      then
        (map (fun r =>
                if sameId recordId r then set_r_pendingAction (Some act_checkout) r else r)
           prev,
         true)
      else (prev, false)
  | None => (prev, false)
  end.

Definition planItems (env : Env) (plans : list PricePlan) : list PurchasedItem :=
  imap (fun i p => mkPurchasedItem (freshItemId env i) (p_id p) (p_name p) 1 (p_amount p))
    plans.

Definition addPlansToRecordTab (env : Env) (recordId : string)
    (plans : list PricePlan) (prev : list CheckinRecord) : list CheckinRecord :=
  map (fun r =>
         if negb (sameId recordId r) then r
         else
           let totalAmount := sumAmounts plans in
           let newProducts := planItems env plans in
           let hasCoachPlan := existsb (fun p => bool_decide (p_type p = plan_coach)) plans in
           set_r_needsCoach (r_needsCoach r || hasCoachPlan)
             (set_r_balance (r_balance r + totalAmount)
                (set_r_amountDue (r_amountDue r + totalAmount)
                   (set_r_productsPurchased
                      (Some (productsOrEmpty r ++ newProducts)) r))))
      prev.

Definition removeItemFromRecord (recordId itemId : string)
    (prev : list CheckinRecord) : list CheckinRecord :=
  map (fun r =>
         if negb (sameId recordId r) then r
         else
           match r_productsPurchased r with
           | None => r
           | Some productsPurchased =>
               match List.find (fun p => String.eqb (it_itemId p) itemId) productsPurchased with
               | None => r
               | Some itemToRemove =>
                   let priceToSubtract := it_price itemToRemove * it_quantity itemToRemove in
                   let newProductsPurchased :=
                     filter (fun p => it_itemId p ≠ itemId) productsPurchased in
                   let newBalance := r_balance r - priceToSubtract in
                   set_r_balanceDueDate
                     (if newBalance >? 0 then r_balanceDueDate r else None)
                     (set_r_balance newBalance
                        (set_r_amountDue (r_amountDue r - priceToSubtract)
                           (set_r_productsPurchased (Some newProductsPurchased) r)))
               end
           end)
      prev.

Definition addPaymentsToRecord (recordId : string) (plans : list PricePlan)
    (prev : list CheckinRecord) : list CheckinRecord :=
  map (fun r =>
         if sameId recordId r then
           let totalAmount := sumAmounts plans in
           let planNames :=
             JS.joinWithPlus (map (fun p => "Renewal: " +:+ p_name p) plans) in
           let newPaymentDetailsString :=
             JS.joinPlus (pd_plan <$> r_paymentDetails r) planNames in
           let newPaymentAmount :=
             JS.orZero (pd_amount <$> r_paymentDetails r) + totalAmount in
           set_r_amountPaid (r_amountPaid r + totalAmount)
             (set_r_amountDue (r_amountDue r + totalAmount)
                (set_r_paymentDetails
                   (Some (mkPaymentDetails newPaymentDetailsString newPaymentAmount)) r))
         else r) prev.

Definition addPartialDuesPaymentToRecord (recordId : string)
    (plans : list PricePlan) (paymentAmount : Z) (dueDate : string)
    (prev : list CheckinRecord) : list CheckinRecord :=
  map (fun r =>
         if sameId recordId r then
           let totalDues := sumAmounts plans in
           let planNames :=
             JS.joinWithPlus (map (fun p => "Due: " +:+ p_name p) plans) in
           let newPaymentDetailsString :=
             JS.joinPlus (pd_plan <$> r_paymentDetails r) planNames in
           set_r_balanceDueDate (Some dueDate)
             (set_r_balance (r_balance r + totalDues - paymentAmount)
                (set_r_amountPaid (r_amountPaid r + paymentAmount)
                   (set_r_amountDue (r_amountDue r + totalDues)
                      (set_r_paymentDetails
                         (Some (mkPaymentDetails newPaymentDetailsString
                                  (JS.orZero (pd_amount <$> r_paymentDetails r)
                                   + totalDues))) r))))
         else r) prev.

Definition nameHas (sub : string) (p : PricePlan) : bool :=
  JS.includes (JS.toLowerCase (p_name p)) sub.

Definition servicesStep (env : Env) (recordId : string) (plans : list PricePlan)
    (walkins : list WalkinClient) (r : CheckinRecord)
  : list WalkinClient * CheckinRecord :=
  if negb (sameId recordId r) || negb (bool_decide (r_type r = Walkin_t))
  then (walkins, r)
  else
    let totalAmount := sumAmounts plans in
    let newProducts := planItems env plans in
    let walkins1 :=
      match List.find (nameHas "sessions") plans with
      | Some sessionPlanInfo =>
          if JS.truthyStr (r_walkinClientId r) then
            let totalSessions :=
              match JS.matchSessionCount (p_name sessionPlanInfo) with
              | Some digits => JS.orZero (JS.parseInt digits)
              | None => 0
              end in
            if totalSessions >? 0
            then WalkinClients.updateWalkinClientSessionPlan (now env)
                   (JS.nullish (r_walkinClientId r) "")
                   (Some (mkSessionPlan (p_name sessionPlanInfo) totalSessions 0 None))
                   walkins
            else walkins
          else walkins
      | None => walkins
      end in
    let hasCoachPlan :=
      existsb (fun p =>
                 bool_decide (p_type p = plan_coach)
                 || bool_decide (p_type p = plan_class)
                 || nameHas "pt" p || nameHas "boxing" p || nameHas "muaythai" p)
        plans in
    let coachAssigned :=
      if existsb (nameHas "taekwondo") plans
      then Some "COACH RALPH"
      else r_coachAssigned r in
    let className :=
      match List.find (fun p => bool_decide (p_type p = plan_class)) plans with
      | Some p => if JS.truthyStr (Some (p_name p)) then Some (p_name p) else r_className r
      | None => r_className r
      end in
    (walkins1,
     set_r_className className
       (set_r_coachAssigned coachAssigned
          (set_r_needsCoach (r_needsCoach r || hasCoachPlan)
             (set_r_balance (r_balance r + totalAmount)
                (set_r_amountDue (r_amountDue r + totalAmount)
                   (set_r_productsPurchased
                      (Some (productsOrEmpty r ++ newProducts)) r)))))).

Definition addServicesToWalkinRecord (env : Env) (recordId : string)
    (plans : list PricePlan) (walkins : list WalkinClient)
    (prev : list CheckinRecord) : list CheckinRecord * list WalkinClient :=
  let '(walkins1, next) := mapAccum (servicesStep env recordId plans) walkins prev in
  (next, walkins1).

Definition markRecordSessionCompleted (recordId : string)
    (prev : list CheckinRecord) : list CheckinRecord :=
  map (fun r => if sameId recordId r then set_r_sessionCompleted (Some true) r else r) prev.

(** ** The hook as a state machine *)

(** The two state cells the hook writes: its own records and, through the
    callbacks it is given, the walk-in clients. *)
Record State := mkState {
  checkinRecords : list CheckinRecord;
  walkinClients : list WalkinClient
}.

(** A call of one of the functions the hook returns. *)
Inductive Op :=
| AddCheckinRecord (recordData : Draft)
| ConfirmPendingRecord (id : string) (updates : option Updates)
| CancelPendingRecord (id reason : string)
| AddCheckoutRecord (recordId : string) (products : list ProductLine) (total : Z)
| RequestCheckoutByRecordId (recordId : string)
| AddPaymentToRecord (recordId : string) (paymentAmount : Z)
    (newBalanceDueDate : option string)
| ProcessPayment (recordId : string) (paymentAmount : Z)
    (settledProductIds : list string) (newBalanceDueDate : option string)
| AddPlansToRecordTab (recordId : string) (plans : list PricePlan)
| AddPaymentsToRecord (recordId : string) (plans : list PricePlan)
| AddPartialDuesPaymentToRecord (recordId : string) (plans : list PricePlan)
    (paymentAmount : Z) (dueDate : string)
| AddServicesToWalkinRecord (recordId : string) (plans : list PricePlan)
| ConfirmCheckout (recordId : string) (balanceDueDate : option string)
| CancelPendingCheckout (recordId : string)
| AssignCoachToRecord (recordId coachName : string)
| RemoveItemFromRecord (recordId itemId : string)
| MarkRecordSessionCompleted (recordId : string).

(** What a call leaves behind: the state, the message passed to [alert] and
    the value returned, when there is one. *)
Record Outcome := mkOutcome {
  state : State;
  alerted : option string;
  returned : option bool
}.

Definition quiet (records : list CheckinRecord) (st : State) : Outcome :=
  mkOutcome (mkState records (walkinClients st)) None None.

Definition run (env : Env) (op : Op) (st : State) : Outcome :=
  let prev := checkinRecords st in
  match op with
  | AddCheckinRecord recordData => quiet (addCheckinRecord env recordData prev) st
  | ConfirmPendingRecord id updates =>
      let '(next, walkins) :=
        confirmPendingRecord env id updates (walkinClients st) prev in
      mkOutcome (mkState next walkins) None None
  | CancelPendingRecord id reason => quiet (cancelPendingRecord id reason prev) st
  | AddCheckoutRecord recordId products total =>
      quiet (addCheckoutRecord env recordId products total prev) st
  | RequestCheckoutByRecordId recordId =>
      let '(next, success) := requestCheckoutByRecordId recordId prev in
      mkOutcome (mkState next (walkinClients st)) None (Some success)
  | AddPaymentToRecord recordId paymentAmount newBalanceDueDate =>
      quiet (addPaymentToRecord recordId paymentAmount newBalanceDueDate prev) st
  | ProcessPayment recordId paymentAmount settledProductIds newBalanceDueDate =>
      quiet (processPayment recordId paymentAmount settledProductIds
               newBalanceDueDate prev) st
  | AddPlansToRecordTab recordId plans =>
      quiet (addPlansToRecordTab env recordId plans prev) st
  | AddPaymentsToRecord recordId plans =>
      quiet (addPaymentsToRecord recordId plans prev) st
  | AddPartialDuesPaymentToRecord recordId plans paymentAmount dueDate =>
      quiet (addPartialDuesPaymentToRecord recordId plans paymentAmount dueDate prev) st
  | AddServicesToWalkinRecord recordId plans =>
      let '(next, walkins) :=
        addServicesToWalkinRecord env recordId plans (walkinClients st) prev in
      mkOutcome (mkState next walkins) None None
  | ConfirmCheckout recordId balanceDueDate =>
      let '(next, alert) := confirmCheckout env recordId balanceDueDate prev in
      mkOutcome (mkState next (walkinClients st)) alert None
  | CancelPendingCheckout recordId => quiet (cancelPendingCheckout recordId prev) st
  | AssignCoachToRecord recordId coachName =>
      quiet (assignCoachToRecord recordId coachName prev) st
  | RemoveItemFromRecord recordId itemId =>
      quiet (removeItemFromRecord recordId itemId prev) st
  | MarkRecordSessionCompleted recordId =>
      quiet (markRecordSessionCompleted recordId prev) st
  end.

(** ** The words of the specification about a new check-in *)

(** "all prior records for the same client that are closed out
    ([checkoutTimestamp] set) with a remaining positive [balance]". *)
Definition closedDebtOfClient (recordData : Draft) (r : CheckinRecord) : Prop :=
  JS.present (clientIdOf recordData)
  /\ clientKeyOf recordData r = clientIdOf recordData
  /\ 0 < r_balance r
  /\ JS.present (r_checkoutTimestamp r).

#[global] Instance closedDebtOfClient_dec (recordData : Draft) (r : CheckinRecord) :
  Decision (closedDebtOfClient recordData r).
Proof. unfold closedDebtOfClient; apply _. Defined.






(** The record id an operation is keyed by, for the operations that look a
    record up before they change it. *)
Definition keyOf (op : Op) : option string :=
  match op with
  | ConfirmPendingRecord id _ => Some id
  | CancelPendingRecord id _ => Some id
  | ConfirmCheckout recordId _ => Some recordId
  | CancelPendingCheckout recordId => Some recordId
  | AddCheckoutRecord recordId _ _ => Some recordId
  | AddPaymentToRecord recordId _ _ => Some recordId
  | ProcessPayment recordId _ _ _ => Some recordId
  | AddPlansToRecordTab recordId _ => Some recordId
  | RemoveItemFromRecord recordId _ => Some recordId
  | AssignCoachToRecord recordId _ => Some recordId
  | MarkRecordSessionCompleted recordId => Some recordId
  | _ => None
  end.





End Checkins.

(* ====================================================================== *)
(** * hooks/useMembers.ts *)
(* ====================================================================== *)

Module Members.
Import DateUtils Types.

Inductive MessageType := msg_success | msg_error | msg_info.

Record Message := mkMessage {
  msg_type : MessageType;
  msg_text : string
}.

(** The calendar interval of a renewal plan, chosen by the first keyword its
    lower-cased name contains; the flag says whether the plan also switches
    the membership type to 'NO MF'. *)
Inductive Interval := Years1 | Months (n : Z) | Days (n : Z).

Definition renewalInterval (planNameLower : string) : option (Interval * bool) :=
  if JS.includes planNameLower "yearly" then Some (Years1, false)
  else if JS.includes planNameLower "6 months" then Some (Months 6, false)
  else if JS.includes planNameLower "3 months" then Some (Months 3, false)
  else if JS.includes planNameLower "no mf" then Some (Months 1, true)
  else if JS.includes planNameLower "monthly" then Some (Months 1, false)
  else if JS.includes planNameLower "daily" then Some (Days 1, false)
  else None.

Definition addInterval (i : Interval) (start : Instant) : Date :=
  match i with
  | Years1 => addYear start
  | Months n => addMonths start n
  | Days n => addDays start n
  end.

Definition isSessionPlan (plan : PricePlan) : bool :=
  bool_decide (p_type plan = plan_coach)
  || (bool_decide (p_type plan = plan_class)
      && JS.includes (JS.toLowerCase (p_name plan)) "session").

Definition sessionsToAdd (plan : PricePlan) : Z :=
  match JS.matchSessionCount (p_name plan) with
  | Some digits => JS.orZero (JS.parseInt digits)
  | None => 1
  end.

Definition trainingTypeFor (planNameLower : string) (current : option string)
  : option string :=
  if JS.includes planNameLower "boxing" then Some "Boxing Training"
  else if JS.includes planNameLower "muaythai" then Some "Muaythai Training"
  else if JS.includes planNameLower "taekwondo" then Some "Taekwondo Training"
  else if JS.includes planNameLower "pt -" then Some "Loss Weight/Circuit Training"
  else current.

Definition addHistoryEntry (now : Instant) (member : Member)
    (type : HistoryEntryType) (title : string) (details : option string)
    (paymentAmount : option Z) : Member :=
  let newEntry := mkHistoryEntry (getLocalISOString now) type title details paymentAmount in
  set_m_history (Some (newEntry :: JS.nullish (m_history member) [])) member.

(** [String(n).padStart(4, '0')] *)
Definition padStart4 (s : string) : string :=
  string_of_list_ascii
    (replicate (4 - length (list_ascii_of_string s)) "0"%char
     ++ list_ascii_of_string s).

(** [id.match(/\d+$/)]: the digits that end the string, if any. *)
Definition trailingDigits (id : string) : option string :=
  match (JS.spanDigits (JS.revString id)).1 with
  | EmptyString => None
  | ds => Some (JS.revString ds)
  end.

Definition getNextMemberId (members : list Member) : string :=
  let maxId :=
    foldl (fun max member =>
             let numericId :=
               match trailingDigits (m_id member) with
               | Some ds => JS.orZero (JS.parseInt ds)
               | None => 0
               end in
             if numericId >? max then numericId else max)
          0 members in
  "G-" +:+ padStart4 (JS.numToString (maxId + 1)).

(** [new Map(prev.map(m => [m.id, m]))] followed by [set]: a key that is
    present keeps its place and takes the new value, a new key goes last. *)
Fixpoint mapSet (entries : list Member) (member : Member) : list Member :=
  match entries with
  | [] => [member]
  | m :: r =>
      if String.eqb (m_id m) (m_id member) then member :: r
      else m :: mapSet r member
  end.

Section Host.

Variable hostDate : string -> Date.

(** The session branch of the plan loop, up to the history entry.  The two
    plan loops ([applyPaymentPlansToMember], [addPlansToMember]) repeat it
    word for word. *)
Definition grantSessions (now : Instant) (plan : PricePlan)
    (updatedMember : Member) : Member :=
  let today := startOfDay now in
  let planNameLower := JS.toLowerCase (p_name plan) in
  let m1 := set_m_hasCoach true updatedMember in
  let m2 := set_m_trainingType (trainingTypeFor planNameLower (m_trainingType m1)) m1 in
  let remainingSessions :=
    JS.orZero (m_totalSessions m2) - JS.orZero (m_sessionsUsed m2) in
  let sessionsExpired :=
    JS.truthyStr (m_sessionExpiryDate m2)
    && match parseDate hostDate (m_sessionExpiryDate m2) with
       | Some d => ltDate d today
       | None => 0 <? timeValue today
       end in
  let m3 :=
    if (remainingSessions <=? 0) || sessionsExpired
    then set_m_sessionsUsed (Some 0) (set_m_totalSessions (Some (sessionsToAdd plan)) m2)
    else set_m_totalSessions (Some (JS.orZero (m_totalSessions m2) + sessionsToAdd plan)) m2 in
  set_m_sessionExpiryDate (Some (formatToYMD (addMonths now 3))) m3.

Definition sessionDetails (plan : PricePlan) (m : Member) : string :=
  "Plan: " +:+ p_name plan +:+ ". New total sessions: "
    +:+ JS.numToString (JS.orZero (m_totalSessions m)) +:+ ".".

(** The start of a locker or fee period: the current due date when it is
    after today, else today. *)
Definition laterOfTodayAnd (now : Instant) (dueDate : option string) : Instant :=
  let today := startOfDay now in
  let currentDueDate :=
    if JS.truthyStr dueDate then parseDate hostDate dueDate else None in
  match currentDueDate with
  | Some d => if ltDate today d then d else today
  | None => today
  end.

Definition dueDetails (plan : PricePlan) (newDueDate : Date) : string :=
  "Plan: " +:+ p_name plan +:+ ". New Due Date: " +:+ formatDate newDueDate.

(** The locker branch, with the title, type and amount of its history entry. *)
Definition extendLocker (now : Instant) (plan : PricePlan) (type : HistoryEntryType)
    (title : string) (paymentAmount : option Z) (updatedMember : Member) : Member :=
  let startDate := laterOfTodayAnd now (m_lockerDueDate updatedMember) in
  let newDueDate := addMonths startDate 1 in
  let m1 :=
    set_m_lockerDueDate (Some (formatToYMD newDueDate))
      (set_m_lockerStartDate
         (Some (if JS.truthyStr (m_lockerStartDate updatedMember)
                then JS.nullish (m_lockerStartDate updatedMember) ""
                else getTodayYMD now))
         updatedMember) in
  addHistoryEntry now m1 type title (Some (dueDetails plan newDueDate)) paymentAmount.

(** The membership-fee branch. *)
Definition extendFee (now : Instant) (plan : PricePlan) (type : HistoryEntryType)
    (title : string) (paymentAmount : option Z) (updatedMember : Member) : Member :=
  let startDate := laterOfTodayAnd now (m_membershipFeeDueDate updatedMember) in
  let newDueDate := addYear startDate in
  let m1 :=
    set_m_membershipFeeDueDate (Some (formatToYMD newDueDate))
      (set_m_membershipFeeLastPaid (Some (getTodayYMD now)) updatedMember) in
  addHistoryEntry now m1 type title (Some (dueDetails plan newDueDate)) paymentAmount.

(** The object written by a renewal: status, dates and membership type. *)
Definition renewed (now : Instant) (startDateForNewPeriod : Instant)
    (newDueDate : Date) (noMF : bool) (updatedMember : Member) : Member :=
  set_m_membershipType
    (if noMF then "NO MF" else m_membershipType updatedMember)
    (set_m_dueDate (Some (formatToYMD newDueDate))
       (set_m_subscriptionStartDate (Some (formatToYMD (Some startDateForNewPeriod)))
          (set_m_lastPaymentDate (getTodayYMD now)
             (set_m_status "Active" updatedMember)))).

(** ** applyPaymentPlansToMember *)

(** The start of the new period in [applyPaymentPlansToMember]; [None] is the
    [TypeError] of calling [setHours] on the [null] that [parseDate] returned
    for a due date it cannot read. *)
Definition paymentPeriodStart (now : Instant) (updatedMember : Member)
    (newSubscriptionStartDate : option string) : option Instant :=
  let isCurrentlyDue :=
    negb (JS.truthyStr (m_dueDate updatedMember))
    || isPastOrToday hostDate now (m_dueDate updatedMember) in
  let startDateForNewPeriod :=
    if isCurrentlyDue && JS.truthyStr newSubscriptionStartDate then
      Some (JS.nullish (parseDate hostDate newSubscriptionStartDate) now)
    else if isCurrentlyDue then Some now
    else parseDate hostDate (m_dueDate updatedMember) in
  startOfDay <$> startDateForNewPeriod.

(** One round of the [forEach] of [applyPaymentPlansToMember]. *)
Definition applyPaymentPlan (now : Instant)
    (newSubscriptionStartDate : option string) (updatedMember : Member)
    (plan : PricePlan) : option Member :=
  let planNameLower := JS.toLowerCase (p_name plan) in
  if isSessionPlan plan then
    let m1 := grantSessions now plan updatedMember in
    Some (addHistoryEntry now m1 payment "Online Payment: Coach/Class Plan"
            (Some (sessionDetails plan m1)) (Some (p_amount plan)))
  else if JS.includes planNameLower "locker rental" then
    Some (extendLocker now plan payment "Online Payment: Locker"
            (Some (p_amount plan)) updatedMember)
  else if JS.includes planNameLower "membership fee" then
    Some (extendFee now plan payment "Online Payment: Membership Fee"
            (Some (p_amount plan)) updatedMember)
  else
    match paymentPeriodStart now updatedMember newSubscriptionStartDate with
    | None => None
    | Some startDateForNewPeriod =>
        match renewalInterval planNameLower with
        | Some (interval, noMF) =>
            let newDueDate := addInterval interval startDateForNewPeriod in
            let m1 := renewed now startDateForNewPeriod newDueDate noMF updatedMember in
            Some (addHistoryEntry now m1 payment "Online Payment: Renewal"
                    (Some ("Plan: " +:+ p_name plan +:+ ". New period starts "
                           +:+ formatDate (Some startDateForNewPeriod)
                           +:+ ". New Due Date: " +:+ formatDate newDueDate))
                    (Some (p_amount plan)))
        | None => Some updatedMember
        end
    end.

(** [None] is an exception thrown inside the loop. *)
Definition applyPaymentPlansToMember (now : Instant) (member : Member)
    (plans : list PricePlan) (newSubscriptionStartDate : option string)
  : option Member :=
  foldl (fun acc plan =>
           match acc with
           | Some updatedMember =>
               applyPaymentPlan now newSubscriptionStartDate updatedMember plan
           | None => None
           end)
        (Some member) plans.

(** ** addPlansToMember *)

(** One round of the [forEach] of [addPlansToMember]. *)
Definition addPlanToMember (now : Instant) (asPayment : bool)
    (updatedMember : Member) (plan : PricePlan) : Member :=
  let planNameLower := JS.toLowerCase (p_name plan) in
  let historyType := if asPayment then payment else note in
  let paymentAmount := if asPayment then Some (p_amount plan) else None in
  if isSessionPlan plan then
    let m1 := grantSessions now plan updatedMember in
    addHistoryEntry now m1 historyType
      (if asPayment then "Coach/Class Plan Purchased" else "Coach/Class Plan Added to Tab")
      (Some (sessionDetails plan m1)) paymentAmount
  else if JS.includes planNameLower "locker rental" then
    extendLocker now plan historyType
      (if asPayment then "Locker Rental Paid" else "Locker Added to Tab")
      paymentAmount updatedMember
  else if JS.includes planNameLower "membership fee" then
    extendFee now plan historyType
      (if asPayment then "Membership Fee Paid" else "Fee Added to Tab")
      paymentAmount updatedMember
  else
    let today := startOfDay now in
    let currentMainDueDate :=
      if JS.truthyStr (m_dueDate updatedMember)
      then parseDate hostDate (m_dueDate updatedMember)
      else Some today in
    let startDateForNewPeriod :=
      match currentMainDueDate with
      | Some d => if ltDate today d then d else today
      | None => today
      end in
    match renewalInterval planNameLower with
    | Some (interval, noMF) =>
        let newDueDate := addInterval interval startDateForNewPeriod in
        let m1 := renewed now startDateForNewPeriod newDueDate noMF updatedMember in
        addHistoryEntry now m1 historyType
          (if asPayment then "Membership Renewed" else "Renewal Added to Tab")
          (Some (dueDetails plan newDueDate)) paymentAmount
    | None => updatedMember
    end.

Definition addPlansToMember (now : Instant) (memberId : string)
    (plans : list PricePlan) (asPayment : bool) (prev : list Member)
  : list Member :=
  map (fun m =>
         if negb (String.eqb (m_id m) memberId) then m
         else foldl (addPlanToMember now asPayment) m plans)
      prev.

Definition renewMembership (now : Instant) (memberId : string)
    (paymentDetails : PaymentDetails) (prev : list Member) : list Member :=
  let plan :=
    mkPricePlan "" (pd_plan paymentDetails) (pd_amount paymentDetails) plan_member in
  addPlansToMember now memberId [plan] true prev.

(** ** The other operations of the hook *)

(** [newMemberData] has the type [Omit<Member, 'id' | 'membershipStartDate' |
    'lastPaymentDate' | 'dueDate'>]: those four fields of the argument are
    not read.  An absent [purchasedPlans] is the empty list.  [None] is an
    exception thrown while the plans are applied. *)
Definition addMember (now : Instant) (newMemberData : Member)
    (purchasedPlans : list PricePlan) (newSubscriptionStartDate : option string)
    (members : list Member) : option (Member * list Member) :=
  let dueDate := addMonths now 1 in
  let newMember0 :=
    set_m_dueDate (Some (formatToYMD dueDate))
      (set_m_lastPaymentDate (getTodayYMD now)
         (set_m_subscriptionStartDate (Some (getTodayYMD now))
            (set_m_membershipStartDate (getTodayYMD now)
               (set_m_photoUrl (Some (JS.nullish (m_photoUrl newMemberData) ""))
                  (set_m_id (getNextMemberId members) newMemberData))))) in
  let details :=
    "Initial Status: " +:+ m_status newMember0 +:+ ". Due Date: "
      +:+ formatDateStr hostDate (m_dueDate newMember0) in
  let newMember1 :=
    addHistoryEntry now newMember0 status_change "Member Created" (Some details) None in
  match applyPaymentPlansToMember now newMember1 purchasedPlans newSubscriptionStartDate with
  | Some newMember => Some (newMember, newMember :: members)
  | None => None
  end.

Definition addMultipleMembers (newMembers : list Member) (prev : list Member)
  : list Member :=
  foldl mapSet (foldl mapSet [] prev) newMembers.

(** The callback of the [map] of [updateMember] on the member it replaces. *)
Definition updateOne (now : Instant) (updatedMember : Member)
    (purchasedPlans : list PricePlan) (newSubscriptionStartDate : option string)
    (m : Member) : option Member :=
  let m1 :=
    if negb (String.eqb (JS.toLowerCase (m_status m))
                        (JS.toLowerCase (m_status updatedMember)))
    then addHistoryEntry now updatedMember status_change "Status Updated"
           (Some ("Status manually updated from " +:+ JS.quote +:+ m_status m
                  +:+ JS.quote +:+ " to " +:+ JS.quote +:+ m_status updatedMember
                  +:+ JS.quote)) None
    else updatedMember in
  let m2 :=
    if negb (JS.strictEqStr (m_classId m) (m_classId m1)) then
      let oldClassName :=
        if JS.truthyStr (m_className m) then JS.nullish (m_className m) "" else "Unassigned" in
      let newClassName :=
        if JS.truthyStr (m_className m1) then JS.nullish (m_className m1) "" else "Unassigned" in
      addHistoryEntry now m1 status_change "Class Changed"
        (Some ("Class changed from " +:+ JS.quote +:+ oldClassName +:+ JS.quote
               +:+ " to " +:+ JS.quote +:+ newClassName +:+ JS.quote)) None
    else m1 in
  applyPaymentPlansToMember now m2 purchasedPlans newSubscriptionStartDate.

(** [None] is an exception thrown while the plans are applied: the state is
    not written. *)
Definition updateMember (now : Instant) (updatedMember : Member)
    (purchasedPlans : list PricePlan) (newSubscriptionStartDate : option string)
    (prev : list Member) : option (list Member) :=
  mapM (fun m =>
          if String.eqb (m_id m) (m_id updatedMember)
          then updateOne now updatedMember purchasedPlans newSubscriptionStartDate m
          else Some m) prev.

Definition deleteMember (id : string) (prev : list Member) : list Member :=
  filter (fun m => m_id m ≠ id) prev.

(** The callback of the [map] of [useSession]; the variable [success] is the
    threaded state. *)
Definition useSessionStep (now : Instant) (memberId : string) (success : bool)
    (m : Member) : bool * Member :=
  if String.eqb (m_id m) memberId && m_hasCoach m then
    let sessionsUsed := JS.nullish (m_sessionsUsed m) 0 in
    let totalSessions := JS.nullish (m_totalSessions m) 0 in
    if sessionsUsed <? totalSessions then
      let updatedMember := set_m_sessionsUsed (Some (sessionsUsed + 1)) m in
      let details :=
        "1 session used. " +:+ JS.numToString (totalSessions - (sessionsUsed + 1))
          +:+ " remaining." in
      (true, addHistoryEntry now updatedMember session_update "Session Used"
               (Some details) None)
    else (success, m)
  else (success, m).

Definition useSession (now : Instant) (memberId : string) (prev : list Member)
  : list Member * bool :=
  let '(success, next) := mapAccum (useSessionStep now memberId) false prev in
  (next, success).

Definition unfreezeMember (now : Instant) (memberId : string)
    (prev : list Member) : list Member :=
  map (fun m =>
         if String.eqb (m_id m) memberId
            && String.eqb (JS.toLowerCase (m_status m)) "frozen"
         then
           let newDueDate :=
             if JS.truthyNum (m_daysRemainingOnFreeze m)
                && (JS.orZero (m_daysRemainingOnFreeze m) >? 0)
             then addDays now (JS.orZero (m_daysRemainingOnFreeze m))
             else addDays now 30 in
           let updatedMember :=
             set_m_daysRemainingOnFreeze (Some 0)
               (set_m_dueDate (Some (formatToYMD newDueDate))
                  (set_m_status "Active" m)) in
           addHistoryEntry now updatedMember status_change "Account Unfrozen"
             (Some ("New Due Date: " +:+ formatDate newDueDate)) None
         else m) prev.

(** The branches of [markSessionComplete] on the member found: the message and
    [finalMemberState]. *)
Definition completeSession (now : Instant) (member : Member)
  : Message * option Member :=
  if JS.truthyStr (m_sessionExpiryDate member)
     && isPastOrToday hostDate now (m_sessionExpiryDate member)
  then
    (mkMessage msg_info
       (m_name member +:+ "'s sessions have expired. Please ask them to purchase a new package."),
     if negb (String.eqb (JS.toLowerCase (m_status member)) "inactive") then
       Some (addHistoryEntry now
               (set_m_sessionsUsed (Some 0)
                  (set_m_totalSessions (Some 0) (set_m_status "Inactive" member)))
               status_change "Sessions Expired"
               (Some ("Coaching sessions expired on "
                      +:+ formatDateStr hostDate (m_sessionExpiryDate member) +:+ "."))
               None)
     else None)
  else if negb (m_hasCoach member) || (JS.nullish (m_totalSessions member) 0 <=? 0)
  then
    (mkMessage msg_error (m_name member +:+ " does not have an active coaching plan."),
     None)
  else if JS.nullish (m_sessionsUsed member) 0 >=? JS.nullish (m_totalSessions member) 0
  then
    (mkMessage msg_info (m_name member +:+ " has no remaining sessions to use."),
     if negb (String.eqb (JS.toLowerCase (m_status member)) "sessions") then
       Some (addHistoryEntry now (set_m_status "Sessions" member)
               status_change "Sessions Finished"
               (Some "No remaining sessions. Status updated.") None)
     else None)
  else
    let newSessionsUsed := JS.nullish (m_sessionsUsed member) 0 + 1 in
    let remaining := JS.nullish (m_totalSessions member) 0 - newSessionsUsed in
    let isLastSession := newSessionsUsed >=? JS.nullish (m_totalSessions member) 0 in
    let messageText :=
      if isLastSession
      then m_name member
             +:+ " has completed all available sessions. Please ask if they would like to renew their package."
      else "Session marked as complete for " +:+ m_name member +:+ ". "
             +:+ JS.numToString remaining +:+ " sessions remaining." in
    let m1 :=
      addHistoryEntry now (set_m_sessionsUsed (Some newSessionsUsed) member)
        session_update "Session Marked Complete"
        (Some ("1 session used. " +:+ JS.numToString remaining +:+ " remaining.")) None in
    let m2 :=
      if isLastSession
      then addHistoryEntry now (set_m_status "Sessions" m1) status_change
             "Sessions Finished" (Some "Completed all available coaching sessions.") None
      else m1 in
    (mkMessage msg_success messageText, Some m2).

(** The second component is the value given to [setSessionCompletionMessage]. *)
Definition markSessionComplete (now : Instant) (memberId : string)
    (members : list Member) : list Member * option Message :=
  match list_find (fun m => m_id m = memberId) members with
  | None => (members, Some (mkMessage msg_error "Member not found."))
  | Some (memberIndex, member) =>
      let '(message, finalMemberState) := completeSession now member in
      (match finalMemberState with
       | Some final => <[memberIndex := final]> members
       | None => members
       end,
       Some message)
  end.

Definition addPaymentHistoryToMember (now : Instant) (memberId : string)
    (amount : Z) (notes : string) (prev : list Member) : list Member :=
  map (fun m =>
         if String.eqb (m_id m) memberId
         then addHistoryEntry now m payment "Payment Made" (Some notes) (Some amount)
         else m) prev.

End Host.

(** ** The words of the specification about sessions *)

(** "[sessionsUsed <= totalSessions] whenever [hasCoach] is true". *)
Definition withinTotal (m : Member) : Prop :=
  m_hasCoach m = true ->
  JS.nullish (m_sessionsUsed m) 0 <= JS.nullish (m_totalSessions m) 0.

(** "already-exhausted": no session is left. *)
Definition exhausted (m : Member) : Prop :=
  JS.nullish (m_totalSessions m) 0 <= JS.nullish (m_sessionsUsed m) 0.

End Members.

(* ====================================================================== *)
(** * A day at the front desk: the data of the worked examples *)
(* ====================================================================== *)

Module Scenario.
Import DateUtils Types Checkins.

(** A host whose [new Date(string)] reads no string at all. *)
Definition strictHost : string -> Date := fun _ => None.

(** 9 January 2024, 18:00, and 10 January 2024, 09:00. *)
Definition evening : Instant := mkInstant 19731 64800000.
Definition morning : Instant := mkInstant 19732 32400000.

Definition itemIds (stamp : string) (i : nat) : string :=
  "item-" +:+ stamp +:+ "-0." +:+ pretty i.

Definition env : Env := mkEnv evening 1704794400000 (itemIds "1704794400000").
Definition envNext : Env := mkEnv morning 1704848400000 (itemIds "1704848400000").

(** Ann's visit of 9 January: 500.00 due, 300.00 paid, 200.00 open, and she
    has asked to check out. *)
Definition openVisit : CheckinRecord :=
  mkCheckinRecord "rec-1704762000000" "2024-01-09T09:00:00" Member_t "Ann"
    (Some "G-0001") None 30000 Confirmed false None
    (Some (mkPaymentDetails "Monthly" 50000)) 20000 50000 None None
    (Some act_checkout) None None None None None None None None None.


(** A visit in the gym: confirmed, settled, no checkout asked for. *)
Definition plainVisit : CheckinRecord :=
  mkCheckinRecord "rec-1704790800000" "2024-01-09T17:00:00" Member_t "Cid"
    (Some "G-0003") None 10000 Confirmed false None
    (Some (mkPaymentDetails "Daily" 10000)) 0 10000 None None
    None None None None None None None None None None.

(** The same visit with 50.00 still open. *)
Definition owingVisit : CheckinRecord := set_r_balance 5000 (set_r_amountDue 15000 plainVisit).


(** The draft the kiosk submits when the member G-0001 checks in. *)
Definition annDraft : Draft :=
  mkDraft Member_t "Ann" (Some "G-0001") None (Some 0) Pending false None None
    None None None None (Some act_checkin) None None None None None None None
    None None.


Definition noUpdates : Updates :=
  mkUpdates None None None None None None None None None None None None None
    None None None None None None None None None None None.



(** A host whose [new Date(string)] takes an ISO date with a day up to 31 in
    every month and lets it roll over, as V8 does; only the one string of the
    example is spelled out. *)
Definition lenientHost : string -> Date :=
  fun s => if String.eqb s "2024-02-30" then newDateYMD 2024 1 30 else None.

(** The member G-0001, paid up to 5 March 2024. *)
Definition ann : Member :=
  mkMember "G-0001" "Ann" None "Active" "Monthly" "" false None None
    "2023-03-05" (Some "2024-02-05") "2024-02-05" (Some "2024-03-05")
    None None None None None None None None None None None None.

(** The same member with a due date that has passed, as in the example of the
    specification. *)
Definition annOverdue : Member := set_m_dueDate (Some "2024-01-01") ann.

Definition monthly : PricePlan := mkPricePlan "price-2" "Monthly" 90000 plan_member.

(** A coached member with five of eight sessions left in a package that
    expired on 31 December 2023. *)
Definition lapsed : Member :=
  mkMember "G-0005" "Eve" None "Active" "Monthly" "" true (Some "COACH RALPH")
    (Some "Boxing Training") "2023-03-05" (Some "2023-12-05") "2023-12-05"
    (Some "2024-02-05") (Some 8) (Some 3) None None (Some "2023-12-31")
    None None None None None None None.



End Scenario.

(* ====================================================================== *)
(** * hooks/useTasks.ts *)
(* ====================================================================== *)

Module Tasks.
Import DateUtils.

Inductive Recurrence := rec_none | rec_daily | rec_weekly | rec_monthly.

Record Task := mkTask {
  t_id : string;
  t_title : string;
  t_details : string;
  t_dueDate : string;
  t_recurrence : Recurrence;
  t_clientId : option string;
  t_clientName : option string;
  t_completedOn : list string
}.

Definition set_t_completedOn (v : list string) (x : Task) : Task :=
  mkTask (t_id x) (t_title x) (t_details x) (t_dueDate x) (t_recurrence x)
    (t_clientId x) (t_clientName x) v.

(** [d.getDay()]: 0 is Sunday, and 1 January 1970 was a Thursday. *)
Definition getDay (t : Instant) : Z := (dayNumber t + 4) mod 7.

Section Host.

Variable hostDate : string -> Date.

Definition isTaskScheduledForDate (task : Task) (checkDate : Instant) : bool :=
  match parseDate hostDate (Some (t_dueDate task)) with
  | None => false
  | Some parsed =>
      let checkDateOnly := startOfDay checkDate in
      let taskStartDate := startOfDay parsed in
      if ltDate checkDateOnly taskStartDate then false
      else
        match t_recurrence task with
        | rec_none => timeValue checkDateOnly =? timeValue taskStartDate
        | rec_daily => true
        | rec_weekly => getDay checkDateOnly =? getDay taskStartDate
        | rec_monthly => getDate checkDateOnly =? getDate taskStartDate
        end
  end.

End Host.

(** [taskData] has the type [Omit<Task, 'id' | 'completedOn'>]: those two
    fields of the argument are not read. *)
Definition addTask (nowMs : Z) (taskData : Task) (prev : list Task) : list Task :=
  mkTask ("task-" +:+ JS.numToString nowMs) (t_title taskData) (t_details taskData)
    (t_dueDate taskData) (t_recurrence taskData) (t_clientId taskData)
    (t_clientName taskData) []
  :: prev.

Definition updateTask (updatedTask : Task) (prev : list Task) : list Task :=
  map (fun t => if String.eqb (t_id t) (t_id updatedTask) then updatedTask else t) prev.

Definition deleteTask (id : string) (prev : list Task) : list Task :=
  filter (fun t => t_id t ≠ id) prev.

(** A [Set<string>] as the list of its members in insertion order. *)
Definition setAdd (x : string) (s : list string) : list string :=
  if bool_decide (x ∈ s) then s else s ++ [x].

(** [new Set(array)] *)
Definition setFromArray (l : list string) : list string :=
  foldl (fun s x => setAdd x s) [] l.

Definition setDelete (x : string) (s : list string) : list string :=
  filter (fun y => y ≠ x) s.

(** [array.sort()] on strings: ascending in the order of their code units. *)
Fixpoint insertSorted (x : string) (l : list string) : list string :=
  match l with
  | [] => [x]
  | y :: r => if String.leb x y then x :: l else y :: insertSorted x r
  end.

Definition sortStrings (l : list string) : list string :=
  foldr insertSorted [] l.

Definition toggleDate (dateStr : string) (completedOn : list string) : list string :=
  let completed := setFromArray completedOn in
  sortStrings
    (if bool_decide (dateStr ∈ completed)
     then setDelete dateStr completed
     else setAdd dateStr completed).

Definition toggleTaskCompletionForDate (taskId dateStr : string)
    (prev : list Task) : list Task :=
  map (fun task =>
         if String.eqb (t_id task) taskId
         then set_t_completedOn (toggleDate dateStr (t_completedOn task)) task
         else task) prev.

End Tasks.

(* ====================================================================== *)
(** * hooks/useClasses.ts *)
(* ====================================================================== *)

Module Classes.

Record AttendanceRecord := mkAttendance {
  a_date : string;
  a_presentMemberIds : list string
}.

Record Class := mkClass {
  c_id : string;
  c_name : string;
  c_coachId : option string;
  c_coachName : option string;
  c_attendance : option (list AttendanceRecord)
}.

Record Coach := mkCoach {
  coach_id : string;
  coach_name : string;
  coach_mobileNumber : string;
  coach_address : string;
  coach_skills : list string
}.

Definition set_c_attendance (v : option (list AttendanceRecord)) (x : Class) : Class :=
  mkClass (c_id x) (c_name x) (c_coachId x) (c_coachName x) v.

Definition set_c_coachName (v : option string) (x : Class) : Class :=
  mkClass (c_id x) (c_name x) (c_coachId x) v (c_attendance x).

Definition classesWithDetails (coaches : list Coach) (classes : list Class)
  : list Class :=
  map (fun c =>
         set_c_coachName
           (coach_name
              <$> List.find (fun coach => JS.strictEqStr (Some (coach_id coach)) (c_coachId c))
                    coaches)
           c) classes.

(** [classData] has the type [Omit<Class, 'id'>]: its [c_id] is not read. *)
Definition addClass (nowMs : Z) (classData : Class) (prev : list Class) : list Class :=
  mkClass ("class-" +:+ JS.numToString nowMs) (c_name classData)
    (c_coachId classData) (c_coachName classData) (Some [])
  :: prev.

Definition updateClass (updatedClass : Class) (prev : list Class) : list Class :=
  map (fun c => if String.eqb (c_id c) (c_id updatedClass) then updatedClass else c) prev.

Definition deleteClass (id : string) (prev : list Class) : list Class :=
  filter (fun c => c_id c ≠ id) prev.

(** The attendance of one class after [markAttendance]. *)
Definition markDate (date : string) (presentMemberIds : list string)
    (attendance : list AttendanceRecord) : list AttendanceRecord :=
  match list_find (fun rec => a_date rec = date) attendance with
  | Some (recordIndex, _) =>
      <[recordIndex := mkAttendance date presentMemberIds]> attendance
  | None => attendance ++ [mkAttendance date presentMemberIds]
  end.

Definition markAttendance (classId date : string) (presentMemberIds : list string)
    (prevClasses : list Class) : list Class :=
  map (fun cls =>
         if String.eqb (c_id cls) classId
         then set_c_attendance
                (Some (markDate date presentMemberIds (JS.nullish (c_attendance cls) [])))
                cls
         else cls) prevClasses.

End Classes.

(* ====================================================================== *)
(** * The payment modal and the handlers of the desk *)
(* ====================================================================== *)

Module Desk.
Import DateUtils Types.

(** What [handleSave] of the payment modal does: an [alert], or the call of
    [onSave] with the amount and the due date. *)
Inductive SaveOutcome :=
| Alerted (message : string)
| Saved (amount : Z) (newBalanceDueDate : option string).

(** [PaymentModal.handleSave]; the state [paymentAmount] is a number or the
    empty string ([None]), and [balanceDueDate] is a string. *)
Definition handleSave (record : CheckinRecord) (paymentAmount : option Z)
    (balanceDueDate : string) : SaveOutcome :=
  let amount := JS.nullish paymentAmount 0 in
  if (amount <=? 0) || (amount >? r_balance record) then
    Alerted ("Please enter a valid payment amount between ₱0.01 and ₱"
             +:+ JS.toFixed2 (r_balance record) +:+ ".")
  else
    let remainingBalance := r_balance record - amount in
    if (remainingBalance >? 0) && String.eqb balanceDueDate ""
    then Alerted "Please set a due date for the remaining balance."
    else Saved amount (if remainingBalance >? 0 then Some balanceDueDate else None).

(** The three collections the desk writes. *)
Record Books := mkBooks {
  records : list CheckinRecord;
  members : list Member;
  walkins : list WalkinClient
}.

(** [Dashboard.handleSaveDashboardPayment] *)
Definition handleSaveDashboardPayment (now : Instant) (recordToUpdate : CheckinRecord)
    (paymentAmount : Z) (newBalanceDueDate : option string) (b : Books) : Books :=
  let records1 :=
    Checkins.addPaymentToRecord (r_id recordToUpdate) paymentAmount
      newBalanceDueDate (records b) in
  if JS.truthyStr (r_gymNumber recordToUpdate) then
    mkBooks records1
      (Members.addPaymentHistoryToMember now
         (JS.nullish (r_gymNumber recordToUpdate) "") paymentAmount
         "Balance payment for outstanding daily tab." (members b))
      (walkins b)
  else if JS.truthyStr (r_walkinClientId recordToUpdate) then
    mkBooks records1 (members b)
      (WalkinClients.addPaymentHistoryToWalkinClient now
         (JS.nullish (r_walkinClientId recordToUpdate) "") paymentAmount
         "Balance payment for outstanding daily tab." (walkins b))
  else mkBooks records1 (members b) (walkins b).

(** The modal with [onSave={handleSaveDashboardPayment}], as the dashboard
    mounts it: the books after the form is submitted, and the alert if any. *)
Definition submitPayment (now : Instant) (record : CheckinRecord)
    (paymentAmount : option Z) (balanceDueDate : string) (b : Books)
  : Books * option string :=
  match handleSave record paymentAmount balanceDueDate with
  | Alerted message => (b, Some message)
  | Saved amount newBalanceDueDate =>
      (handleSaveDashboardPayment now record amount newBalanceDueDate b, None)
  end.

End Desk.

(* ====================================================================== *)
(** * The member operations that rewrite members in place *)
(* ====================================================================== *)

Module MemberOps.
Import DateUtils Types Members.

(** A call of one of the functions of the hook that walk over the members
    and rewrite the one they are given the id of. *)
Inductive Op :=
| UseSession (memberId : string)
| AddPlansToMember (memberId : string) (plans : list PricePlan) (asPayment : bool)
| RenewMembership (memberId : string) (paymentDetails : PaymentDetails)
| UnfreezeMember (memberId : string)
| MarkSessionComplete (memberId : string)
| AddPaymentHistoryToMember (memberId : string) (amount : Z) (notes : string).

Definition target (op : Op) : string :=
  match op with
  | UseSession memberId => memberId
  | AddPlansToMember memberId _ _ => memberId
  | RenewMembership memberId _ => memberId
  | UnfreezeMember memberId => memberId
  | MarkSessionComplete memberId => memberId
  | AddPaymentHistoryToMember memberId _ _ => memberId
  end.

(** What the call hands back: nothing, the boolean of [useSession], or the
    message of [markSessionComplete]. *)
Inductive Answer :=
| NoAnswer
| Returned (success : bool)
| Posted (message : option Message).

Definition run (hostDate : string -> Date) (now : Instant) (op : Op)
    (members : list Member) : list Member * Answer :=
  match op with
  | UseSession memberId =>
      let '(next, success) := useSession now memberId members in
      (next, Returned success)
  | AddPlansToMember memberId plans asPayment =>
      (addPlansToMember hostDate now memberId plans asPayment members, NoAnswer)
  | RenewMembership memberId paymentDetails =>
      (renewMembership hostDate now memberId paymentDetails members, NoAnswer)
  | UnfreezeMember memberId => (unfreezeMember now memberId members, NoAnswer)
  | MarkSessionComplete memberId =>
      let '(next, message) := markSessionComplete hostDate now memberId members in
      (next, Posted message)
  | AddPaymentHistoryToMember memberId amount notes =>
      (addPaymentHistoryToMember now memberId amount notes members, NoAnswer)
  end.

End MemberOps.

(* ====================================================================== *)
(** * Quantities the properties below speak of *)
(* ====================================================================== *)

Module Measures.
Import DateUtils Types.

(** The money owed over a collection of records. *)
Definition totalBalance (l : list CheckinRecord) : Z :=
  foldr (fun r acc => r_balance r + acc) 0 l.

(** A walk-in client has not used more sessions than the plan holds. *)
Definition planWithinTotal (c : WalkinClient) : Prop :=
  match w_sessionPlan c with
  | Some plan => sp_used plan <= sp_total plan
  | None => True
  end.

(** The history log of a member, an absent one read as empty. *)
Definition historyOf (m : Member) : list MemberHistoryEntry :=
  JS.nullish (m_history m) [].

(** The sessions a member has left. *)
Definition remainingSessions (m : Member) : Z :=
  JS.orZero (m_totalSessions m) - JS.orZero (m_sessionsUsed m).

(** The members of a collection that carry the id, in order. *)
Definition withId (id : string) (l : list Member) : list Member :=
  filter (fun m => m_id m = id) l.

End Measures.

(* ====================================================================== *)
(** * Lists under [map] and [mapAccum] *)
(* ====================================================================== *)

Lemma lookup_map {A B} (f : A -> B) (l : list A) (i : nat) :
  map f l !! i = f <$> (l !! i).
Proof.
  revert i; induction l as [|a l IH]; intros [|i]; simpl; auto.
Qed.

Lemma map_fixed {A} (f : A -> A) (l : list A) :
  Forall (fun a => f a = a) l -> map f l = l.
Proof.
  induction 1 as [|a l Ha _ IH]; simpl; [reflexivity|].
  now rewrite Ha, IH.
Qed.

Lemma mapAccum_fixed {S A} (f : S -> A -> S * A) (s : S) (l : list A) :
  Forall (fun a => f s a = (s, a)) l -> mapAccum f s l = (s, l).
Proof.
  induction 1 as [|a l Ha _ IH]; simpl; [reflexivity|].
  now rewrite Ha, IH.
Qed.


Lemma mapAccum_preserved {S A} (P : A -> Prop) (f : S -> A -> S * A) (l : list A) :
  (forall s a, P a -> P (f s a).2) ->
  forall s, Forall P l -> Forall P (mapAccum f s l).2.
Proof.
  intros Hf s Hl; revert s.
  induction Hl as [|a l Ha _ IH]; intros s; simpl; [constructor|].
  specialize (Hf s a Ha).
  destruct (f s a) as [s1 b] eqn:E1.
  specialize (IH s1).
  destruct (mapAccum f s1 l) as [s2 bs]; simpl in *.
  constructor; assumption.
Qed.

(* ====================================================================== *)
(** * The check-in ledger *)
(* ====================================================================== *)

Module CheckinFacts.
Import DateUtils Types Checkins Scenario.

Lemma sameId_true (recordId : string) (r : CheckinRecord) :
  sameId recordId r = true <-> r_id r = recordId.
Proof. unfold sameId; apply String.eqb_eq. Qed.

Lemma sameId_false (recordId : string) (r : CheckinRecord) :
  sameId recordId r = false <-> r_id r <> recordId.
Proof. unfold sameId; apply String.eqb_neq. Qed.

Lemma find_sameId_none (recordId : string) (prev : list CheckinRecord) :
  Forall (fun r => r_id r <> recordId) prev ->
  List.find (sameId recordId) prev = None.
Proof.
  induction 1 as [|r l Hr _ IH]; simpl; [reflexivity|].
  apply sameId_false in Hr; now rewrite Hr.
Qed.

Local Ltac miss H :=
  unfold quiet; f_equal; destruct_and?; try reflexivity;
  try (f_equal; apply map_fixed; eapply Forall_impl; [exact H|];
       intros r Hr; apply sameId_false in Hr; cbn beta; now rewrite Hr).

(** C10.  An operation keyed by a record id, called with an id that no record
    of the collection carries, returns the state it was given (records and
    walk-in clients alike), passes nothing to [alert] and returns no value. *)
Theorem unknown_id_is_silent_noop (env : Env) (op : Op) (st : State)
    (recordId : string) :
  keyOf op = Some recordId ->
  Forall (fun r => r_id r <> recordId) (checkinRecords st) ->
  run env op st = mkOutcome st None None.
Proof.
  intros Hkey Hmiss.
  destruct st as [prev walkins]; simpl in Hmiss.
  destruct op; simpl in Hkey; try discriminate;
    injection Hkey as ->; unfold run; simpl checkinRecords; simpl walkinClients.
  - (* confirmPendingRecord *)
    unfold confirmPendingRecord.
    rewrite mapAccum_fixed; [reflexivity|].
    eapply Forall_impl; [exact Hmiss|].
    intros r Hr; apply sameId_false in Hr.
    unfold confirmStep; now rewrite Hr.
  - unfold cancelPendingRecord; miss Hmiss.
  - unfold addCheckoutRecord; miss Hmiss.
  - unfold addPaymentToRecord; miss Hmiss.
  - unfold processPayment; miss Hmiss.
  - unfold addPlansToRecordTab; miss Hmiss.
  - (* confirmCheckout *)
    unfold confirmCheckout, checkoutBlocked.
    rewrite find_sameId_none by assumption.
    f_equal. f_equal. apply map_fixed.
    eapply Forall_impl; [exact Hmiss|].
    intros r Hr; apply sameId_false in Hr; cbn beta; now rewrite Hr.
  - unfold cancelPendingCheckout; miss Hmiss.
  - unfold assignCoachToRecord; miss Hmiss.
  - unfold removeItemFromRecord; miss Hmiss.
  - unfold markRecordSessionCompleted; miss Hmiss.
Qed.


(** C4.  A payment [p] with [0 < p <= balance], applied by [addPaymentToRecord]
    to a record of the given id, adds [p] to [amountPaid] and takes [p] from
    [balance], which stays non-negative; [amountDue] is left alone and, while
    the balance stays positive, the due date that was supplied is stored.
    Records of another id are unchanged. *)
Theorem payment_moves_amounts (recordId : string) (paymentAmount : Z)
    (newBalanceDueDate : option string) (prev : list CheckinRecord)
    (i : nat) (r : CheckinRecord) :
  prev !! i = Some r ->
  r_id r = recordId ->
  0 < paymentAmount <= r_balance r ->
  let next := addPaymentToRecord recordId paymentAmount newBalanceDueDate prev in
  (exists r',
      next !! i = Some r'
      /\ r_amountPaid r' = r_amountPaid r + paymentAmount
      /\ r_balance r' = r_balance r - paymentAmount
      /\ 0 <= r_balance r' < r_balance r
      /\ r_amountDue r' = r_amountDue r
      /\ (r_balance r' > 0 -> r_balanceDueDate r' = newBalanceDueDate))
  /\ (forall j x, prev !! j = Some x -> r_id x <> recordId -> next !! j = Some x).
Proof.
  intros Hi Hid Hp next; subst next; unfold addPaymentToRecord.
  split.
  - rewrite lookup_map, Hi; simpl.
    apply sameId_true in Hid; rewrite Hid.
    eexists; split; [reflexivity|]; simpl.
    repeat split; try lia.
    intros Hpos.
    destruct (Z.gtb_spec (r_balance r - paymentAmount) 0); [reflexivity|lia].
  - intros j x Hj Hx.
    rewrite lookup_map, Hj; simpl.
    apply sameId_false in Hx; now rewrite Hx.
Qed.










Lemma truthyStr_present (s : option string) :
  JS.truthyStr s = true <-> JS.present s.
Proof.
  destruct s as [v|]; simpl; [|split; [discriminate|tauto]].
  rewrite negb_true_iff. apply String.eqb_neq.
Qed.

















Lemma checkoutBlocked_spec (recordId : string) (balanceDueDate : option string)
    (prev : list CheckinRecord) (record : CheckinRecord) :
  List.find (sameId recordId) prev = Some record ->
  checkoutBlocked recordId balanceDueDate prev
  = if isPendingCheckout record && (r_balance record >? 0)
       && negb (JS.truthyStr balanceDueDate)
    then Some record else None.
Proof. unfold checkoutBlocked; now intros ->. Qed.

(** C3, amended.  Let [record] be the record [confirmCheckout] finds under the
    id.  If it is pending checkout with a positive balance and no due date is
    supplied, nothing changes and the alert is raised.  If it is pending
    checkout and has no positive balance or a due date is supplied, no alert
    is raised and every record of that id that is pending checkout gets the
    checkout time stamp, the supplied due date (else the one it had) and no
    pending action, its status and amounts unchanged.  If it is not pending
    checkout no alert is raised.  A record of another id, or one that is not
    pending checkout, is never changed. *)
Theorem confirmCheckout_on_pending_checkout (env : Env) (recordId : string)
    (balanceDueDate : option string) (prev : list CheckinRecord)
    (record : CheckinRecord) :
  List.find (sameId recordId) prev = Some record ->
  let out := confirmCheckout env recordId balanceDueDate prev in
  (isPendingCheckout record = true -> 0 < r_balance record ->
   ~ JS.present balanceDueDate ->
   out = (prev, Some (checkoutAlert record)))
  /\ (isPendingCheckout record = true ->
      r_balance record <= 0 \/ JS.present balanceDueDate ->
      out.2 = None
      /\ forall i r,
          prev !! i = Some r -> r_id r = recordId -> isPendingCheckout r = true ->
          exists r',
            out.1 !! i = Some r'
            /\ r_checkoutTimestamp r' = Some (getLocalISOString (now env))
            /\ r_pendingAction r' = None
            /\ r_balanceDueDate r'
               = (if decide (JS.present balanceDueDate)
                  then balanceDueDate else r_balanceDueDate r)
            /\ r_status r' = r_status r
            /\ r_balance r' = r_balance r
            /\ r_amountDue r' = r_amountDue r
            /\ r_amountPaid r' = r_amountPaid r)
  /\ (isPendingCheckout record = false -> out.2 = None)
  /\ (forall i r,
        prev !! i = Some r ->
        r_id r <> recordId \/ isPendingCheckout r = false ->
        out.1 !! i = Some r).
Proof.
  intros Hfind out; subst out; unfold confirmCheckout.
  rewrite (checkoutBlocked_spec _ _ _ _ Hfind).
  pose proof (truthyStr_present balanceDueDate) as Hdue.
  split; [|split; [|split]].
  - intros Hp Hb Hn.
    rewrite Hp; simpl.
    destruct (Z.gtb_spec (r_balance record) 0); [|lia]; simpl.
    destruct (JS.truthyStr balanceDueDate); [exfalso; apply Hn; now apply Hdue|].
    reflexivity.
  - intros Hp Hok.
    assert (Hgo : (if isPendingCheckout record && (r_balance record >? 0)
                      && negb (JS.truthyStr balanceDueDate)
                   then Some record else None) = None).
    { destruct (Z.gtb_spec (r_balance record) 0); simpl;
        [|now rewrite andb_false_r].
      destruct Hok as [Hle|Hd]; [lia|].
      apply Hdue in Hd; rewrite Hd; simpl; now rewrite andb_false_r. }
    rewrite Hgo; simpl. split; [reflexivity|].
    intros i r Hi Hid Hr.
    rewrite lookup_map, Hi; simpl.
    apply sameId_true in Hid; rewrite Hid, Hr; simpl.
    eexists; split; [reflexivity|]; simpl.
    split; [reflexivity|]. split; [reflexivity|].
    split; [|repeat split].
    destruct (decide (JS.present balanceDueDate)) as [D|D].
    + apply Hdue in D; now rewrite D.
    + destruct (JS.truthyStr balanceDueDate) eqn:E; [|reflexivity].
      exfalso; apply D; now apply Hdue.
  - intros Hp; now rewrite Hp.
  - intros i r Hi Hr.
    destruct (_ && _ && _); simpl; [exact Hi|].
    rewrite lookup_map, Hi; simpl.
    destruct Hr as [Hr|Hr].
    + apply sameId_false in Hr; now rewrite Hr.
    + rewrite Hr; now rewrite andb_false_r.
Qed.

Lemma confirmCheckout_on_pending_checkout_witness :
  List.find (sameId (r_id openVisit)) [openVisit] = Some openVisit
  /\ isPendingCheckout openVisit = true
  /\ 0 < r_balance openVisit
  /\ ~ JS.present None
  /\ confirmCheckout env (r_id openVisit) None [openVisit]
     = ([openVisit], Some (checkoutAlert openVisit)).
Proof.
  assert (Hfind : List.find (sameId (r_id openVisit)) [openVisit] = Some openVisit)
    by reflexivity.
  assert (Hnone : ~ JS.present None) by (simpl; tauto).
  split; [exact Hfind|]; split; [reflexivity|]; split; [reflexivity|].
  split; [exact Hnone|].
  apply (proj1 (confirmCheckout_on_pending_checkout env (r_id openVisit) None
                  [openVisit] openVisit Hfind));
    [reflexivity|reflexivity|exact Hnone].
Defined.

(** C3 as stated fails on a visit that has not asked to check out. *)
Lemma confirmCheckout_ignores_plain_visit :
  (* no balance, no due date: the claim has the checkout succeed *)
  (r_balance plainVisit <= 0
   /\ confirmCheckout env (r_id plainVisit) None [plainVisit] = ([plainVisit], None)
   /\ r_checkoutTimestamp plainVisit = None)
  /\
  (* a balance, no due date: the claim has an error signalled *)
  (0 < r_balance owingVisit
   /\ confirmCheckout env (r_id owingVisit) None [owingVisit] = ([owingVisit], None)).
Proof.
  split; [split; [|split]|split].
  - vm_compute; congruence.
  - reflexivity.
  - reflexivity.
  - reflexivity.
  - reflexivity.
Qed.

Lemma unknown_id_is_silent_noop_witness :
  keyOf (AddPaymentToRecord "rec-0" 10000 None) = Some "rec-0"
  /\ Forall (fun r => r_id r <> "rec-0") [openVisit; plainVisit]
  /\ run env (AddPaymentToRecord "rec-0" 10000 None) (mkState [openVisit; plainVisit] [])
     = mkOutcome (mkState [openVisit; plainVisit] []) None None.
Proof.
  assert (H : Forall (fun r => r_id r <> "rec-0") [openVisit; plainVisit])
    by (repeat constructor; simpl; discriminate).
  split; [reflexivity|]; split; [exact H|].
  apply (unknown_id_is_silent_noop env _ _ "rec-0"); [reflexivity|exact H].
Defined.

Lemma payment_moves_amounts_witness :
  [openVisit] !! 0%nat = Some openVisit
  /\ 0 < 12000 <= r_balance openVisit
  /\ exists r',
      addPaymentToRecord (r_id openVisit) 12000 (Some "2024-03-01") [openVisit] !! 0%nat
      = Some r'
      /\ r_amountPaid r' = 42000 /\ r_balance r' = 8000
      /\ r_balanceDueDate r' = Some "2024-03-01".
Proof.
  assert (Hp : 0 < 12000 <= r_balance openVisit) by (simpl; lia).
  split; [reflexivity|]; split; [exact Hp|].
  destruct (payment_moves_amounts (r_id openVisit) 12000 (Some "2024-03-01")
              [openVisit] 0%nat openVisit eq_refl eq_refl Hp)
    as [(r' & Hr' & Hpaid & Hbal & _ & _ & Hdue) _].
  exists r'; repeat split; [exact Hr'|exact Hpaid|exact Hbal|].
  apply Hdue; rewrite Hbal; simpl; lia.
Defined.





(** C5.  Ann leaves on 9 January owing 200.00 with the due date 1 March; when
    she checks in the next morning the debt moves to the new record, and the
    old record is left with no balance and with its due date. *)
Theorem due_date_outlives_carried_balance :
  let afterCheckout :=
    state (run env (ConfirmCheckout (r_id openVisit) (Some "2024-03-01"))
             (mkState [openVisit] [])) in
  let afterReturn :=
    state (run envNext (AddCheckinRecord annDraft) afterCheckout) in
  exists new old,
    checkinRecords afterReturn = [new; old]
    /\ r_id old = r_id openVisit
    /\ r_balance old = 0
    /\ r_balanceDueDate old = Some "2024-03-01"
    /\ r_carriedOverBalance new = Some 20000.
Proof.
  eexists _, _; split; [vm_compute; reflexivity|].
  repeat split.
Qed.


(** ** Where the due date is cleared *)

(** The three settling operations clear the due date of a record they leave
    without a positive balance. *)
Lemma settling_clears_due_date (recordId : string) (prev : list CheckinRecord)
    (i : nat) (r : CheckinRecord) :
  (forall paymentAmount due,
      addPaymentToRecord recordId paymentAmount due prev !! i = Some r ->
      r_id r = recordId -> r_balance r <= 0 -> r_balanceDueDate r = None)
  /\ (forall paymentAmount settled due,
        processPayment recordId paymentAmount settled due prev !! i = Some r ->
        r_id r = recordId -> r_balance r <= 0 -> r_balanceDueDate r = None)
  /\ (forall itemId r0,
        prev !! i = Some r0 ->
        removeItemFromRecord recordId itemId prev !! i = Some r ->
        r <> r0 -> r_balance r <= 0 -> r_balanceDueDate r = None).
Proof.
  split; [|split].
  - intros p due. unfold addPaymentToRecord. rewrite lookup_map.
    destruct (prev !! i) as [x|]; simpl; [|discriminate].
    destruct (sameId recordId x) eqn:E.
    + intros [= <-] _; simpl.
      destruct (Z.gtb_spec (r_balance x - p) 0); [lia|reflexivity].
    + intros [= <-] Hid. apply sameId_false in E. contradiction.
  - intros p settled due. unfold processPayment. rewrite lookup_map.
    destruct (prev !! i) as [x|]; simpl; [|discriminate].
    destruct (sameId recordId x) eqn:E; simpl.
    + intros [= <-] _; simpl.
      destruct (Z.gtb_spec (r_balance x - p) 0); [lia|reflexivity].
    + intros [= <-] Hid. apply sameId_false in E. contradiction.
  - intros itemId r0 H0. unfold removeItemFromRecord. rewrite lookup_map, H0; simpl.
    destruct (negb (sameId recordId r0)); [intros [= <-] Hne; contradiction|].
    destruct (r_productsPurchased r0) as [items|]; [|intros [= <-] Hne; contradiction].
    destruct (List.find _ items) as [item|]; [|intros [= <-] Hne; contradiction].
    intros [= <-] _; simpl.
    destruct (Z.gtb_spec (r_balance r0 - it_price item * it_quantity item) 0);
      [lia|reflexivity].
Qed.

End CheckinFacts.

(* ====================================================================== *)
(** * The walk-in ledger *)
(* ====================================================================== *)

Module WalkinFacts.
Import DateUtils Types WalkinClients Scenario.








End WalkinFacts.

(* ====================================================================== *)
(** * The member ledger *)
(* ====================================================================== *)

Module MemberFacts.
Import DateUtils Types Members Scenario.

Section Host.

Variable hostDate : string -> Date.

Lemma parseDate_present (s : option string) (d : Instant) :
  parseDate hostDate s = Some d -> JS.truthyStr s = true.
Proof.
  destruct s as [s|]; simpl; [|discriminate].
  destruct (String.eqb s ""); simpl; [discriminate|reflexivity].
Qed.

Lemma leDate_not_lt (a b : Instant) : leDate a b = true -> ltDate b a = false.
Proof.
  unfold leDate, ltDate; intros H.
  apply Z.leb_le in H; apply Z.ltb_ge; exact H.
Qed.

Lemma ltDate_not_le (a b : Instant) : ltDate a b = true -> leDate b a = false.
Proof.
  unfold leDate, ltDate; intros H.
  apply Z.ltb_lt in H; apply Z.leb_gt; exact H.
Qed.

(** C6.  For a plan that reaches the renewal branch and whose name holds one of
    the renewal keywords, with [interval] the calendar interval of that
    keyword: when the member's due date lies after today, the new due date is
    the due date plus the interval, in [applyPaymentPlansToMember] and in
    [addPlansToMember] alike; when the due date is today, has passed or is
    absent, the new due date is today plus the interval, or, in
    [applyPaymentPlansToMember], the supplied start date plus the interval
    when one is supplied and can be read. *)
Theorem renewal_extends_due_date (now : Instant) (m : Member) (plan : PricePlan)
    (interval : Interval) (noMF : bool) :
  isSessionPlan plan = false ->
  JS.includes (JS.toLowerCase (p_name plan)) "locker rental" = false ->
  JS.includes (JS.toLowerCase (p_name plan)) "membership fee" = false ->
  renewalInterval (JS.toLowerCase (p_name plan)) = Some (interval, noMF) ->
  let today := startOfDay now in
  let paid start := m_dueDate <$> applyPaymentPlansToMember hostDate now m [plan] start in
  let added asPayment prev i :=
    m_dueDate <$> (addPlansToMember hostDate now (m_id m) [plan] asPayment prev !! i) in
  (* the due date lies after today *)
  (forall due,
      parseDate hostDate (m_dueDate m) = Some due -> ltDate today due = true ->
      (forall start,
          paid start = Some (Some (formatToYMD (addInterval interval (startOfDay due)))))
      /\ (forall asPayment prev i,
            prev !! i = Some m ->
            added asPayment prev i = Some (Some (formatToYMD (addInterval interval due)))))
  (* the due date is today, has passed, or is not there *)
  /\ (~ JS.present (m_dueDate m)
      \/ (exists due, parseDate hostDate (m_dueDate m) = Some due
                      /\ leDate due today = true) ->
      (forall start from,
          JS.present start -> parseDate hostDate start = Some from ->
          paid start = Some (Some (formatToYMD (addInterval interval (startOfDay from)))))
      /\ (forall start,
            ~ JS.present start \/ parseDate hostDate start = None ->
            paid start = Some (Some (formatToYMD (addInterval interval today))))
      /\ (forall asPayment prev i,
            prev !! i = Some m ->
            added asPayment prev i = Some (Some (formatToYMD (addInterval interval today))))).
Proof.
  intros Hsession Hlocker Hfee Hint today paid added.
  assert (Hpaid : forall start from,
             paymentPeriodStart hostDate now m start = Some from ->
             paid start = Some (Some (formatToYMD (addInterval interval from)))).
  { intros start from Hstart. subst paid; cbn beta.
    unfold applyPaymentPlansToMember; cbn [foldl].
    unfold applyPaymentPlan.
    rewrite Hsession, Hlocker, Hfee, Hstart, Hint. reflexivity. }
  assert (Hadded : forall asPayment prev i from,
             prev !! i = Some m ->
             (match (if JS.truthyStr (m_dueDate m)
                     then parseDate hostDate (m_dueDate m) else Some today) with
              | Some d => if ltDate today d then d else today
              | None => today
              end) = from ->
             added asPayment prev i
             = Some (Some (formatToYMD (addInterval interval from)))).
  { intros asPayment prev i from Hi Hfrom. subst added; cbn beta.
    unfold addPlansToMember. rewrite lookup_map, Hi; simpl.
    rewrite String.eqb_refl; simpl.
    unfold addPlanToMember.
    rewrite Hsession, Hlocker, Hfee, Hint.
    fold today. rewrite Hfrom. reflexivity. }
  split.
  - intros due Hdue Hlt.
    pose proof (parseDate_present _ _ Hdue) as Htruthy.
    split.
    + intros start. apply Hpaid.
      unfold paymentPeriodStart, isPastOrToday.
      rewrite Htruthy, Hdue; simpl. fold today.
      now rewrite (ltDate_not_le _ _ Hlt).
    + intros asPayment prev i Hi. apply (Hadded _ _ _ _ Hi).
      now rewrite Htruthy, Hdue, Hlt.
  - intros Hdue.
    assert (Hdue' : negb (JS.truthyStr (m_dueDate m))
                    || isPastOrToday hostDate now (m_dueDate m) = true).
    { destruct Hdue as [Hn|(due & Hd & Hle)].
      - destruct (JS.truthyStr (m_dueDate m)) eqn:E; [|reflexivity].
        exfalso; apply Hn. destruct (m_dueDate m) as [s|]; simpl in *; [|discriminate].
        apply negb_true_iff in E. now apply String.eqb_neq.
      - unfold isPastOrToday.
        rewrite (parseDate_present _ _ Hd), Hd; simpl. exact Hle. }
    split; [|split].
    + intros start from Hp Hfrom. apply Hpaid.
      unfold paymentPeriodStart. rewrite Hdue'; simpl.
      rewrite (parseDate_present _ _ Hfrom), Hfrom. reflexivity.
    + intros start Hstart. apply Hpaid.
      unfold paymentPeriodStart. rewrite Hdue'; simpl.
      destruct (JS.truthyStr start) eqn:E; [|reflexivity].
      destruct Hstart as [Hn|Hnone]; [|now rewrite Hnone].
      exfalso; apply Hn. destruct start as [s|]; simpl in *; [|discriminate].
      apply negb_true_iff in E. now apply String.eqb_neq.
    + intros asPayment prev i Hi. apply (Hadded _ _ _ _ Hi).
      destruct Hdue as [Hn|(due & Hd & Hle)].
      * destruct (JS.truthyStr (m_dueDate m)) eqn:E.
        -- exfalso; apply Hn. destruct (m_dueDate m) as [s|]; simpl in *; [|discriminate].
           apply negb_true_iff in E. now apply String.eqb_neq.
        -- unfold ltDate. now rewrite Z.ltb_irrefl.
      * rewrite (parseDate_present _ _ Hd), Hd.
        now rewrite (leDate_not_lt _ _ Hle).
Qed.

End Host.


Lemma renewal_extends_due_date_witness :
  isSessionPlan monthly = false
  /\ renewalInterval (JS.toLowerCase (p_name monthly)) = Some (Months 1, false)
  /\ parseDate strictHost (m_dueDate ann) = Some (mkInstant 19787 0)
  /\ ltDate (startOfDay morning) (mkInstant 19787 0) = true
  /\ m_dueDate <$> applyPaymentPlansToMember strictHost morning ann [monthly] None
     = Some (Some "2024-04-05").
Proof.
  split; [reflexivity|]; split; [reflexivity|].
  assert (Hdue : parseDate strictHost (m_dueDate ann) = Some (mkInstant 19787 0))
    by (vm_compute; reflexivity).
  assert (Hlt : ltDate (startOfDay morning) (mkInstant 19787 0) = true)
    by reflexivity.
  split; [exact Hdue|]; split; [exact Hlt|].
  exact (proj1 (proj1 (renewal_extends_due_date strictHost morning ann monthly
                         (Months 1) false eq_refl eq_refl eq_refl eq_refl)
                  (mkInstant 19787 0) Hdue Hlt) None).
Defined.

(** The example of the specification: due on 1 January 2024, a Monthly plan
    bought on 10 January 2024 runs to 10 February 2024. *)
Example overdue_monthly_renewal :
  m_dueDate <$> applyPaymentPlansToMember strictHost morning annOverdue [monthly] None
  = Some (Some "2024-02-10").
Proof. vm_compute; reflexivity. Qed.

(** C7.  A coached member with three of eight sessions used and a package
    that expired on 31 December 2023: on 10 January 2024 [useSession] returns
    [true] and counts a fourth session, where the claim has it refuse;
    [markSessionComplete] refuses on the same member with an info message. *)
Theorem useSession_spends_expired_session :
  isPastOrToday strictHost morning (m_sessionExpiryDate lapsed) = true
  /\ (exists m',
        useSession morning (m_id lapsed) [lapsed] = ([m'], true)
        /\ m_sessionsUsed lapsed = Some 3
        /\ m_sessionsUsed m' = Some 4)
  /\ (exists m' text,
        markSessionComplete strictHost morning (m_id lapsed) [lapsed]
        = ([m'], Some (mkMessage msg_info text))
        /\ m_sessionsUsed m' = Some 0).
Proof.
  split; [vm_compute; reflexivity|]. split.
  - eexists; split; [vm_compute; reflexivity|]. split; reflexivity.
  - eexists _, _; split; [vm_compute; reflexivity|]. reflexivity.
Qed.


(** ** What holds of the session counters *)

Lemma digitsValue_nonneg (s : string) :
  forall acc, 0 <= acc ->
  (JS.spanDigits s).1 = s -> 0 <= JS.digitsValue acc s.
Proof.
  induction s as [|c s IH]; intros acc Hacc Hs; [exact Hacc|].
  cbn [JS.spanDigits] in Hs. cbn [JS.digitsValue].
  destruct (JS.isDigit c) eqn:Ec; [|discriminate].
  destruct (JS.spanDigits s) as [ds rest] eqn:Es; cbn [fst] in Hs.
  injection Hs as Hs.
  apply IH; [|exact Hs].
  unfold JS.isDigit in Ec. apply andb_true_iff in Ec as [H1 _].
  apply Nat.leb_le in H1.
  generalize dependent (nat_of_ascii c). intros n H1. lia.
Qed.

Lemma spanDigits_idem (s : string) :
  (JS.spanDigits (JS.spanDigits s).1).1 = (JS.spanDigits s).1.
Proof.
  induction s as [|c s IH]; simpl; [reflexivity|].
  destruct (JS.isDigit c) eqn:Ec; [|reflexivity].
  destruct (JS.spanDigits s) as [ds rest]; simpl in *.
  rewrite Ec. destruct (JS.spanDigits ds) as [ds' rest']; simpl in *.
  now rewrite IH.
Qed.

Lemma spanDigits_head (s : string) (c : ascii) (r : string) :
  (JS.spanDigits s).1 = String c r -> JS.isDigit c = true.
Proof.
  destruct s as [|c' s]; simpl; [discriminate|].
  destruct (JS.isDigit c') eqn:Ec; [|discriminate].
  destruct (JS.spanDigits s); simpl. now intros [= <- _].
Qed.

Lemma isDigit_not_space_or_sign (c : ascii) :
  JS.isDigit c = true ->
  JS.isSpace c = false /\ c <> "-"%char /\ c <> "+"%char.
Proof.
  intros H. split; [|split].
  - unfold JS.isDigit, JS.isSpace in *.
    apply andb_true_iff in H as [H1 H2].
    apply Nat.leb_le in H1; apply Nat.leb_le in H2.
    generalize dependent (nat_of_ascii c); intros n H1 H2.
    apply orb_false_iff; split.
    + apply Nat.eqb_neq; lia.
    + apply andb_false_iff; right. apply Nat.leb_gt; lia.
  - intros ->; vm_compute in H; discriminate.
  - intros ->; vm_compute in H; discriminate.
Qed.

Lemma matchSessionCount_digits (s ds : string) :
  JS.matchSessionCount s = Some ds -> exists t, ds = (JS.spanDigits t).1 /\ ds <> EmptyString.
Proof.
  induction s as [|c s IH]; simpl; [discriminate|].
  destruct (JS.isDigit c) eqn:Ec; [|exact IH].
  destruct (JS.spanDigits s) as [run rest] eqn:Es.
  destruct (String.prefix _ _); [|exact IH].
  intros [= <-]. exists (String c s); simpl. rewrite Ec, Es. split; [reflexivity|discriminate].
Qed.

Lemma parseInt_digits_nonneg (t : string) :
  0 <= JS.orZero (JS.parseInt (JS.spanDigits t).1).
Proof.
  pose proof (spanDigits_idem t) as Hid.
  destruct (JS.spanDigits t).1 as [|c r] eqn:E; [simpl; lia|].
  pose proof (spanDigits_head _ _ _ E) as Hc.
  destruct (isDigit_not_space_or_sign c Hc) as (Hsp & Hm & Hp).
  unfold JS.parseInt. simpl JS.trimStart. rewrite Hsp.
  assert (Hsign : (match String c r with
                   | String "-"%char r0 => (true, r0)
                   | String "+"%char r0 => (false, r0)
                   | _ => (false, String c r)
                   end) = (false, String c r)).
  { destruct c as [[] [] [] [] [] [] [] []]; try reflexivity; congruence. }
  rewrite Hsign.
  destruct (JS.spanDigits (String c r)) as [ds rest] eqn:Es.
  simpl in Hid. subst ds.
  change (0 <= JS.digitsValue 0 (String c r)).
  apply digitsValue_nonneg; [lia|].
  now rewrite Es.
Qed.

Lemma sessionsToAdd_nonneg (plan : PricePlan) : 0 <= sessionsToAdd plan.
Proof.
  unfold sessionsToAdd.
  destruct (JS.matchSessionCount (p_name plan)) as [ds|] eqn:E; [|lia].
  apply matchSessionCount_digits in E as (t & -> & _).
  apply parseInt_digits_nonneg.
Qed.

Section Host.

Variable hostDate : string -> Date.

(** A session plan leaves the counters within the total, whatever they were. *)
Lemma grantSessions_within_total (now : Instant) (plan : PricePlan) (m : Member) :
  withinTotal (grantSessions hostDate now plan m).
Proof.
  unfold withinTotal, grantSessions; intros _; simpl.
  pose proof (sessionsToAdd_nonneg plan) as Hadd.
  match goal with |- context [if ?b then _ else _] => destruct b eqn:E end; simpl.
  - exact Hadd.
  - apply orb_false_iff in E as [E _]. apply Z.leb_gt in E.
    unfold JS.orZero in *. lia.
Qed.

Lemma addHistoryEntry_within_total (now : Instant) (m : Member)
    (type : HistoryEntryType) (title : string) (details : option string)
    (paymentAmount : option Z) :
  withinTotal m -> withinTotal (addHistoryEntry now m type title details paymentAmount).
Proof. unfold withinTotal; simpl; auto. Qed.

(** One round of either plan loop keeps the counters within the total. *)
Lemma plan_rounds_keep_within_total (now : Instant) (plan : PricePlan) (m : Member) :
  withinTotal m ->
  (forall start m',
      applyPaymentPlan hostDate now start m plan = Some m' -> withinTotal m')
  /\ (forall asPayment, withinTotal (addPlanToMember hostDate now asPayment m plan)).
Proof.
  intros Hm; split.
  - intros start m'. unfold applyPaymentPlan.
    destruct (isSessionPlan plan).
    { intros [= <-]. apply addHistoryEntry_within_total, grantSessions_within_total. }
    destruct (JS.includes _ "locker rental"); [intros [= <-]; exact Hm|].
    destruct (JS.includes _ "membership fee"); [intros [= <-]; exact Hm|].
    destruct (paymentPeriodStart _ _ _ _); [|discriminate].
    destruct (renewalInterval _) as [[iv b]|]; intros [= <-]; exact Hm.
  - intros asPayment. unfold addPlanToMember.
    destruct (isSessionPlan plan).
    { apply addHistoryEntry_within_total, grantSessions_within_total. }
    destruct (JS.includes _ "locker rental"); [exact Hm|].
    destruct (JS.includes _ "membership fee"); [exact Hm|].
    destruct (renewalInterval _) as [[iv b]|]; exact Hm.
Qed.

(** [useSession] keeps the counters within the total, and leaves a member
    with no session left as it is. *)
Lemma useSession_keeps_within_total (now : Instant) (memberId : string)
    (prev : list Member) :
  Forall withinTotal prev -> Forall withinTotal (useSession now memberId prev).1.
Proof.
  intros H. unfold useSession.
  assert (Hstep : forall (s : bool) (m : Member),
             withinTotal m -> withinTotal (useSessionStep now memberId s m).2).
  { intros s m Hm. unfold useSessionStep.
    destruct (_ && _); [|exact Hm].
    destruct (Z.ltb_spec (JS.nullish (m_sessionsUsed m) 0)
                (JS.nullish (m_totalSessions m) 0)); [|exact Hm].
    unfold withinTotal; simpl; intros _; lia. }
  pose proof (mapAccum_preserved withinTotal (useSessionStep now memberId) prev
                Hstep false H) as Hp.
  now destruct (mapAccum (useSessionStep now memberId) false prev).
Qed.

Lemma useSession_exhausted (now : Instant) (memberId : string) (success : bool)
    (m : Member) :
  exhausted m -> useSessionStep now memberId success m = (success, m).
Proof.
  unfold exhausted, useSessionStep; intros H.
  destruct (_ && _); [|reflexivity].
  destruct (Z.ltb_spec (JS.nullish (m_sessionsUsed m) 0) (JS.nullish (m_totalSessions m) 0));
    [lia|reflexivity].
Qed.

(** [markSessionComplete] on a member with no session left, or whose package
    has expired, answers with an error or an info message and either leaves
    the member alone or rewrites it with the same or a zero count. *)
Lemma completeSession_refuses (now : Instant) (m : Member) :
  exhausted m
  \/ (JS.present (m_sessionExpiryDate m)
      /\ isPastOrToday hostDate now (m_sessionExpiryDate m) = true) ->
  msg_type (completeSession hostDate now m).1 <> msg_success
  /\ match (completeSession hostDate now m).2 with
     | None => True
     | Some final =>
         m_sessionsUsed final = m_sessionsUsed m \/ m_sessionsUsed final = Some 0
     end.
Proof.
  intros H. unfold completeSession.
  destruct (JS.truthyStr (m_sessionExpiryDate m)
            && isPastOrToday hostDate now (m_sessionExpiryDate m)) eqn:Eexp.
  - simpl; split; [discriminate|]. destruct (negb _); simpl; auto.
  - destruct H as [Hex|(Hp & Hpast)].
    + destruct (negb (m_hasCoach m) || _); simpl; [split; [discriminate|exact I]|].
      unfold exhausted in Hex.
      destruct (Z.geb_spec (JS.nullish (m_sessionsUsed m) 0)
                  (JS.nullish (m_totalSessions m) 0)); [|lia].
      simpl; split; [discriminate|]. destruct (negb _); simpl; auto.
    + exfalso. rewrite Hpast, andb_true_r in Eexp.
      destruct (m_sessionExpiryDate m) as [s|]; simpl in *; [|contradiction].
      apply negb_false_iff, String.eqb_eq in Eexp. contradiction.
Qed.

(** [markSessionComplete] keeps the counters within the total. *)
Lemma completeSession_keeps_within_total (now : Instant) (m final : Member) :
  withinTotal m ->
  (completeSession hostDate now m).2 = Some final -> withinTotal final.
Proof.
  intros Hm. unfold completeSession.
  destruct (_ && _).
  { simpl. destruct (negb _); [|discriminate].
    intros [= <-]. unfold withinTotal; simpl; intros _; lia. }
  destruct (negb (m_hasCoach m) || _); simpl; [discriminate|].
  destruct (Z.geb_spec (JS.nullish (m_sessionsUsed m) 0)
              (JS.nullish (m_totalSessions m) 0)); simpl.
  { destruct (negb _); [|discriminate]. intros [= <-]. exact Hm. }
  intros [= <-].
  match goal with |- context [if ?b then _ else _] => destruct b end;
    unfold withinTotal; simpl; intros _; lia.
Qed.

End Host.

End MemberFacts.

(* ====================================================================== *)
(** * The date utilities *)
(* ====================================================================== *)

Module DateFacts.
Import DateUtils Types Scenario.

(** C9.  The thirtieth of February is rejected by the manual branch of
    [parseDate], and yet [parseDate] returns a date for it on any host whose
    [new Date(string)] reads that string as a date of a year between 1900 and
    2100: the rejected string is handed to the fallback. *)
Theorem parseDate_returns_rolled_over_date (hostDate : string -> Date)
    (rolled : Instant) :
  hostDate "2024-02-30" = Some rolled ->
  1900 < getFullYear rolled < 2100 ->
  parseManual "2024-02-30" = None
  /\ parseDate hostDate (Some "2024-02-30") = Some rolled.
Proof.
  intros Hhost Hyear.
  assert (Hmanual : parseManual "2024-02-30" = None) by (vm_compute; reflexivity).
  split; [exact Hmanual|].
  unfold parseDate.
  replace (JS.trim "2024-02-30") with "2024-02-30" by (vm_compute; reflexivity).
  simpl String.eqb; cbn [orb].
  rewrite Hmanual. unfold parseFallback. rewrite Hhost.
  destruct (Z.gtb_spec (getFullYear rolled) 1900); [|lia].
  destruct (Z.ltb_spec (getFullYear rolled) 2100); [|lia].
  reflexivity.
Qed.

Lemma parseDate_returns_rolled_over_date_witness :
  lenientHost "2024-02-30" = Some (mkInstant 19783 0)
  /\ 1900 < getFullYear (mkInstant 19783 0) < 2100
  /\ parseDate lenientHost (Some "2024-02-30") = Some (mkInstant 19783 0)
  /\ formatToYMD (Some (mkInstant 19783 0)) = "2024-03-01".
Proof.
  assert (Hhost : lenientHost "2024-02-30" = Some (mkInstant 19783 0))
    by (vm_compute; reflexivity).
  assert (Hyear : 1900 < getFullYear (mkInstant 19783 0) < 2100)
    by (vm_compute; split; reflexivity).
  split; [exact Hhost|]; split; [exact Hyear|]; split; [|vm_compute; reflexivity].
  exact (proj2 (parseDate_returns_rolled_over_date lenientHost _ Hhost Hyear)).
Defined.

(** The three formats, read by the manual branch. *)
Example parseDate_reads_three_formats :
  parseDate strictHost (Some "2024-01-10") = Some (mkInstant 19732 0)
  /\ parseDate strictHost (Some "10-01-2024") = Some (mkInstant 19732 0)
  /\ parseDate strictHost (Some "10/01/2024") = Some (mkInstant 19732 0).
Proof. repeat split; vm_compute; reflexivity. Qed.

(** On a host that reads none of them, the thirtieth of February is refused in
    each format. *)
Example parseDate_refuses_february_30_on_strict_host :
  parseDate strictHost (Some "2024-02-30") = None
  /\ parseDate strictHost (Some "30-02-2024") = None
  /\ parseDate strictHost (Some "30/02/2024") = None.
Proof. repeat split; vm_compute; reflexivity. Qed.


(** ** What the manual branch returns *)

Lemma timeClip_some (t d : Instant) : timeClip t = Some d -> d = t.
Proof. unfold timeClip; destruct (_ <=? _); congruence. Qed.

(** The manual branch returns the civil date it read, at midnight: a date that
    would roll over is not returned by it. *)
Lemma parseManual_exact (trimmedDate : string) (d : Instant) :
  parseManual trimmedDate = Some d ->
  exists p1 p2 p3,
    map JS.parseInt (JS.split trimmedDate) = [Some p1; Some p2; Some p3]
    /\ timeInDay d = 0
    /\ ((1000 < p1 /\ civilFromDays (dayNumber d) = (p1, p2, p3))
        \/ (p1 <= 1000 /\ 1000 < p3 /\ civilFromDays (dayNumber d) = (p3, p2, p1))).
Proof.
  unfold parseManual.
  destruct (map JS.parseInt (JS.split trimmedDate))
    as [|[p1|] [|[p2|] [|[p3|] [|? ?]]]]; try discriminate.
  intros H. exists p1, p2, p3. split; [reflexivity|].
  assert (Hgen : forall year month day,
             (if negb (year =? 0) && negb (month =? 0) && negb (day =? 0)
              then match newDateYMD year (month - 1) day with
                   | Some manualDate =>
                       if (getFullYear manualDate =? year)
                          && (getMonth manualDate =? month - 1)
                          && (getDate manualDate =? day)
                       then Some manualDate else None
                   | None => None
                   end
              else None) = Some d ->
             timeInDay d = 0 /\ civilFromDays (dayNumber d) = (year, month, day)).
  { intros year month day. destruct (_ && _ && _); [|discriminate].
    destruct (newDateYMD year (month - 1) day) as [t|] eqn:Et; [|discriminate].
    destruct (_ && _ && _) eqn:Eq; [|discriminate].
    intros [= ->].
    apply timeClip_some in Et.
    split; [now rewrite Et|].
    apply andb_true_iff in Eq as [Eq E3]. apply andb_true_iff in Eq as [E1 E2].
    apply Z.eqb_eq in E1, E2, E3.
    unfold getFullYear, getMonth, getDate in *.
    destruct (civilFromDays (dayNumber d)) as [[y m] dd]; simpl in *.
    f_equal; [f_equal|]; lia. }
  destruct (Z.gtb_spec p1 1000).
  - destruct (Hgen _ _ _ H) as [Hmid Hc]. split; [exact Hmid|]. left; auto.
  - destruct (Z.gtb_spec p3 1000); [|discriminate].
    destruct (Hgen _ _ _ H) as [Hmid Hc]. split; [exact Hmid|]. right; auto.
Qed.

End DateFacts.
